(** * Smart night light: the device-control core

    A shallow embedding of the Python sources under [app/gpio], [app/domain]
    and [app/api/routes_scenarios.py], followed by the properties of the
    controller state machine, the registries and the scenario engine; then
    of the code around them: the other routes, the factories, the
    authentication, the settings and the parsing done by the bot.

    Conventions of the embedding:
    - a Python [float] is an IEEE 754 binary64 value, taken from the
      Standard Library's [spec_float] (comparisons and the product are the
      library's [SFltb], [SFleb], [SFeqb] and [SFmul] at precision 53);
    - a method is a function from the state of its object to an [outcome]:
      it returns, raises (the mutations done so far are kept) or blocks on
      a [threading.Lock] that is already held;
    - [threading.Lock] is not re-entrant: acquiring a held lock blocks;
    - controllers are objects with identity: devices refer to them through
      a reference into a heap;
    - a [str] is a sequence of code points below 256;
    - the handlers of the routes are modelled without their dependencies:
      the bearer-token check stands on its own, as [Auth.require_auth]. *)

From Stdlib Require Import ZArith Bool List String Ascii Lia.
From Stdlib Require Import Floats.SpecFloat.
Import ListNotations.

Set Implicit Arguments.

(* ================================================================== *)
(** ** Python floats *)

Module Float.
Definition prec : Z := 53.
Definition emax : Z := 1024.

Definition t : Type := spec_float.

(** The literals [0.0], [1.0] and [100.0]. *)
Definition zero : t := S754_zero false.
Definition one : t := S754_finite false 4503599627370496 (-52).
Definition hundred : t := S754_finite false 7036874417766400 (-46).
Definition nan : t := S754_nan.
(** [-1.0] and [2.0], the ends of the range probed by the tests. *)
Definition minus_one : t := S754_finite true 4503599627370496 (-52).
Definition two : t := S754_finite false 4503599627370496 (-51).

Definition ltb (x y : t) : bool := SFltb x y.
Definition leb (x y : t) : bool := SFleb x y.
Definition eqb (x y : t) : bool := SFeqb x y.
Definition gtb (x y : t) : bool := SFltb y x.
Definition mul (x y : t) : t := SFmul prec emax x y.

(** [float(n)] for a Python [int]: the nearest binary64 value, ties to
    even; [None] stands for the OverflowError of an [int] too large. *)
Definition of_int (n : Z) : option t :=
  match binary_normalize prec emax n 0 false with
  | S754_infinity _ => None
  | x => Some x
  end.

Definition is_nan (x : t) : bool :=
  match x with S754_nan => true | _ => false end.
End Float.

Declare Scope float_scope.
Delimit Scope float_scope with float.
Infix "<?" := Float.ltb : float_scope.
Infix "<=?" := Float.leb : float_scope.
Infix ">?" := Float.gtb : float_scope.
Infix "=?" := Float.eqb : float_scope.
Infix "*" := Float.mul : float_scope.

(* ================================================================== *)
(** ** Exceptions, outcomes and locks *)

Inductive exn : Type :=
| KeyError (key : string)
| HTTPException (status_code : Z) (detail : string)
| TypeError
| ValueError
| OverflowError
| RpiGpioImportError
| RuntimeError (code : Z).

Definition HTTP_404_NOT_FOUND : Z := 404.

(** The result of running a method on a state [S]. *)
Inductive outcome (S A : Type) : Type :=
| Returned (s : S) (a : A)
| Raised (s : S) (e : exn)
| Blocked (s : S).

Arguments Returned {S A} s a.
Arguments Raised {S A} s e.
Arguments Blocked {S A} s.

Definition M (S A : Type) : Type := S -> outcome S A.

Definition ret {S A} (a : A) : M S A := fun s => Returned s a.

Definition bind {S A B} (m : M S A) (k : A -> M S B) : M S B :=
  fun s =>
    match m s with
    | Returned s' a => k a s'
    | Raised s' e => Raised s' e
    | Blocked s' => Blocked s'
    end.

Definition raise {S A} (e : exn) : M S A := fun s => Raised s e.

(** The value of an expression that may raise. *)
Definition eval {S A} (r : A + exn) : M S A :=
  match r with
  | inl a => ret a
  | inr e => raise e
  end.
Definition gets {S A} (f : S -> A) : M S A := fun s => Returned s (f s).
Definition modify {S} (f : S -> S) : M S unit := fun s => Returned (f s) tt.

Declare Scope py_scope.
Delimit Scope py_scope with py.
Notation "x <- m ;; k" := (bind m (fun x => k))
  (at level 61, m at next level, right associativity) : py_scope.
Notation "m ;; k" := (bind m (fun _ => k))
  (at level 61, right associativity) : py_scope.
Open Scope py_scope.

(** [try: body finally: fin].  The [finally] block runs when the body
    returned or raised, not when it never came back; an exception of the
    [finally] block replaces the one of the body. *)
Definition try_finally {S A} (body : M S A) (fin : M S unit) : M S A :=
  fun s =>
    match body s with
    | Returned s' a =>
        match fin s' with
        | Returned s'' _ => Returned s'' a
        | Raised s'' e => Raised s'' e
        | Blocked s'' => Blocked s''
        end
    | Raised s' e =>
        match fin s' with
        | Returned s'' _ => Raised s'' e
        | Raised s'' e' => Raised s'' e'
        | Blocked s'' => Blocked s''
        end
    | Blocked s' => Blocked s'
    end.

(** [try: body except KeyError as exc: handler]. *)
Definition except_KeyError {S A} (body : M S A) (handler : string -> M S A)
  : M S A :=
  fun s =>
    match body s with
    | Raised s' (KeyError k) => handler k s'
    | r => r
    end.

(** Run a method of a component on the state of the object that holds it. *)
Definition zoom {S T A} (get : T -> S) (set : S -> T -> T) (m : M S A)
  : M T A :=
  fun t =>
    match m (get t) with
    | Returned s a => Returned (set s t) a
    | Raised s e => Raised (set s t) e
    | Blocked s => Blocked (set s t)
    end.

(** A [threading.Lock]: [true] while some caller holds it. *)
Definition Lock : Type := bool.

Section WithLock.
Context {S : Type} (get : S -> Lock) (set : Lock -> S -> S).

Definition acquire : M S unit :=
  fun s => if get s then Blocked s else Returned (set true s) tt.

Definition release : M S unit := modify (set false).

(** [with self._lock: body] *)
Definition with_lock {A} (body : M S A) : M S A :=
  acquire ;; try_finally body release.
End WithLock.

(* ================================================================== *)
(** ** app/gpio/mock_gpio.py *)

Module MockPwmOutput.
Record t : Type := mk
  { frequency_hz : Z;
    duty_cycle_percent : Float.t;
    started : bool;
    _lock : Lock }.

Definition new (frequency_hz : Z) : t :=
  mk frequency_hz Float.zero false false.

Definition set_lock (l : Lock) (m : t) : t :=
  mk (frequency_hz m) (duty_cycle_percent m) (started m) l.
Definition set_started (b : bool) (m : t) : t :=
  mk (frequency_hz m) (duty_cycle_percent m) b (_lock m).
Definition set_duty_cycle_percent (d : Float.t) (m : t) : t :=
  mk (frequency_hz m) d (started m) (_lock m).

Definition start (duty_cycle_percent : Float.t) : M t unit :=
  with_lock _lock set_lock
    (modify (set_started true) ;;
     modify (set_duty_cycle_percent duty_cycle_percent)).

Definition change_duty_cycle (duty_cycle_percent : Float.t) : M t unit :=
  with_lock _lock set_lock
    (is_started <- gets started ;;
     (if negb is_started then modify (set_started true) else ret tt) ;;
     modify (set_duty_cycle_percent duty_cycle_percent)).

Definition stop : M t unit :=
  with_lock _lock set_lock
    (modify (set_started false) ;;
     modify (set_duty_cycle_percent Float.zero)).

Definition close : M t unit := ret tt.
End MockPwmOutput.

(* ================================================================== *)
(** ** app/gpio/rpi_gpio.py *)

Module RpiPwmOutput.
(** The calls the backend makes to the RPi.GPIO driver. *)
Inductive GpioCall : Type :=
| setmode_BCM
| setup_OUT (pin : Z)
| PWM (pin frequency_hz : Z)
| PWM_start (duty : Float.t)
| PWM_ChangeDutyCycle (duty : Float.t)
| PWM_stop
| cleanup (pin : Z).

(** The driver is outside the repository: it is the log of the calls it
    got, and an arbitrary function saying which call raises after which
    history. *)
Record Gpio : Type := mkGpio
  { calls : list GpioCall;
    raises : list GpioCall -> GpioCall -> option exn }.

Record t : Type := mk
  { pin : Z;
    frequency_hz : Z;
    _lock : Lock;
    _gpio : Gpio;
    _started : bool }.

Definition set_lock (l : Lock) (r : t) : t :=
  mk (pin r) (frequency_hz r) l (_gpio r) (_started r).
Definition set_gpio (g : Gpio) (r : t) : t :=
  mk (pin r) (frequency_hz r) (_lock r) g (_started r).
Definition set_started (b : bool) (r : t) : t :=
  mk (pin r) (frequency_hz r) (_lock r) (_gpio r) b.

Definition driver (c : GpioCall) : M Gpio unit :=
  fun g =>
    let g' := mkGpio (calls g ++ [c]) (raises g) in
    match raises g (calls g) c with
    | Some e => Raised g' e
    | None => Returned g' tt
    end.

Definition gpio (c : GpioCall) : M t unit := zoom _gpio set_gpio (driver c).

(** [__post_init__], the object built or the exception raised;
    [rpi_gpio] is [None] when [import RPi.GPIO] fails. *)
Definition new (rpi_gpio : option Gpio) (pin frequency_hz : Z) : t + exn :=
  match rpi_gpio with
  | None => inr RpiGpioImportError
  | Some g =>
      match
        (gpio setmode_BCM ;;
         gpio (setup_OUT pin) ;;
         gpio (PWM pin frequency_hz))
          (mk pin frequency_hz false g false)
      with
      | Returned r _ => inl r
      | Raised _ e => inr e
      | Blocked r => inl r
      end
  end.

Definition start (duty_cycle_percent : Float.t) : M t unit :=
  with_lock _lock set_lock
    (gpio (PWM_start duty_cycle_percent) ;;
     modify (set_started true)).

Definition change_duty_cycle (duty_cycle_percent : Float.t) : M t unit :=
  with_lock _lock set_lock
    (is_started <- gets _started ;;
     if negb is_started
     then gpio (PWM_start duty_cycle_percent) ;;
          modify (set_started true)
     else gpio (PWM_ChangeDutyCycle duty_cycle_percent)).

Definition stop : M t unit :=
  with_lock _lock set_lock
    (is_started <- gets _started ;;
     (if is_started then gpio PWM_stop else ret tt) ;;
     modify (set_started false)).

Definition close : M t unit :=
  with_lock _lock set_lock
    (try_finally
       stop
       (p <- gets pin ;; gpio (cleanup p))).
End RpiPwmOutput.

(* ================================================================== *)
(** ** app/gpio/base.py *)

Module PwmOutput.
(** The four methods of the protocol. *)
Inductive call : Type :=
| Start (duty_cycle_percent : Float.t)
| ChangeDutyCycle (duty_cycle_percent : Float.t)
| Stop
| Close.

(** The implementations shipped with the repository. *)
Inductive impl : Type :=
| Mock (m : MockPwmOutput.t)
| Rpi (r : RpiPwmOutput.t).

(** A backend object.  [received] is a ghost field: the method calls
    the object has received so far, in order.  No code reads it. *)
Record t : Type := mk
  { backend : impl;
    received : list call }.

Definition set_backend (i : impl) (p : t) : t := mk i (received p).
Definition record (c : call) (p : t) : t := mk (backend p) (received p ++ [c]).

Definition run_mock (c : call) : M MockPwmOutput.t unit :=
  match c with
  | Start d => MockPwmOutput.start d
  | ChangeDutyCycle d => MockPwmOutput.change_duty_cycle d
  | Stop => MockPwmOutput.stop
  | Close => MockPwmOutput.close
  end.

Definition run_rpi (c : call) : M RpiPwmOutput.t unit :=
  match c with
  | Start d => RpiPwmOutput.start d
  | ChangeDutyCycle d => RpiPwmOutput.change_duty_cycle d
  | Stop => RpiPwmOutput.stop
  | Close => RpiPwmOutput.close
  end.

(** Dynamic dispatch on the class of the backend. *)
Definition run_impl (c : call) : M impl unit :=
  fun i =>
    match i with
    | Mock m => zoom (fun _ => m) (fun m' _ => Mock m') (run_mock c) i
    | Rpi r => zoom (fun _ => r) (fun r' _ => Rpi r') (run_rpi c) i
    end.

Definition send (c : call) : M t unit :=
  modify (record c) ;; zoom backend set_backend (run_impl c).

Definition start (d : Float.t) : M t unit := send (Start d).
Definition change_duty_cycle (d : Float.t) : M t unit :=
  send (ChangeDutyCycle d).
Definition stop : M t unit := send Stop.
Definition close : M t unit := send Close.

Definition of_mock (m : MockPwmOutput.t) : t := mk (Mock m) [].
Definition of_rpi (r : RpiPwmOutput.t) : t := mk (Rpi r) [].
End PwmOutput.

Record LedState : Type := mkLedState
  { is_on : bool;
    brightness : Float.t }.

(* ================================================================== *)
(** ** app/gpio/led.py *)

Definition _clamp (value low high : Float.t) : Float.t :=
  if (value <? low)%float then low
  else if (value >? high)%float then high
  else value.

Module LedController.
Record t : Type := mk
  { pwm : PwmOutput.t;
    _lock : Lock;
    _is_on : bool;
    _brightness : Float.t }.

Definition new (pwm : PwmOutput.t) : t := mk pwm false false Float.zero.

Definition set_pwm (p : PwmOutput.t) (c : t) : t :=
  mk p (_lock c) (_is_on c) (_brightness c).
Definition set_lock (l : Lock) (c : t) : t :=
  mk (pwm c) l (_is_on c) (_brightness c).
Definition set_is_on (b : bool) (c : t) : t :=
  mk (pwm c) (_lock c) b (_brightness c).
Definition set__brightness (x : Float.t) (c : t) : t :=
  mk (pwm c) (_lock c) (_is_on c) x.

Definition on_pwm {A} (m : M PwmOutput.t A) : M t A := zoom pwm set_pwm m.

Definition _apply : M t unit :=
  b <- gets _brightness ;;
  let duty := (b * Float.hundred)%float in
  on_pwm (PwmOutput.change_duty_cycle duty).

Definition snapshot : M t LedState :=
  gets (fun c => mkLedState (_is_on c) (_brightness c)).

Definition state : M t LedState :=
  with_lock _lock set_lock snapshot.

Definition set_power (is_on : bool) : M t LedState :=
  with_lock _lock set_lock
    ((if is_on
      then
        b <- gets _brightness ;;
        (if (b <=? Float.zero)%float
         then modify (set__brightness Float.one)
         else ret tt) ;;
        _apply ;;
        modify (set_is_on true)
      else
        on_pwm PwmOutput.stop ;;
        modify (set_is_on false) ;;
        modify (set__brightness Float.zero)) ;;
     snapshot).

(** [float(brightness)] is the identity on a float. *)
Definition set_brightness (brightness : Float.t) : M t LedState :=
  with_lock _lock set_lock
    (modify (set__brightness (_clamp brightness Float.zero Float.one)) ;;
     b <- gets _brightness ;;
     if (b =? Float.zero)%float
     then
       on_pwm PwmOutput.stop ;;
       modify (set_is_on false) ;;
       ret (mkLedState false Float.zero)
     else
       modify (set_is_on true) ;;
       _apply ;;
       b' <- gets _brightness ;;
       ret (mkLedState true b')).

Definition close : M t unit :=
  with_lock _lock set_lock
    (try_finally (on_pwm PwmOutput.stop) (on_pwm PwmOutput.close)).
End LedController.

(* ================================================================== *)
(** ** Python dictionaries with string keys

    A [dict] keeps its keys in insertion order; assigning to a key that
    is present keeps its place. *)

Definition dict (V : Type) : Type := list (string * V).

Fixpoint dict_get {V} (k : string) (d : dict V) : option V :=
  match d with
  | [] => None
  | (k', v) :: d' => if String.eqb k' k then Some v else dict_get k d'
  end.

Definition dict_get_default {V} (k : string) (default : V) (d : dict V) : V :=
  match dict_get k d with
  | Some v => v
  | None => default
  end.

Fixpoint dict_set {V} (k : string) (v : V) (d : dict V) : dict V :=
  match d with
  | [] => [(k, v)]
  | (k', v') :: d' =>
      if String.eqb k' k then (k, v) :: d' else (k', v') :: dict_set k v d'
  end.

Definition dict_values {V} (d : dict V) : list V := map snd d.

(** [for x in xs: body(x)] *)
Fixpoint for_each {S A} (xs : list A) (body : A -> M S unit) : M S unit :=
  match xs with
  | [] => ret tt
  | x :: xs' => body x ;; for_each xs' body
  end.

(* ================================================================== *)
(** ** app/domain/devices.py *)

(** References to controller objects, and the heap they live in. *)
Definition ref : Type := nat.
Definition Heap : Type := ref -> LedController.t.

Definition heap_set (r : ref) (c : LedController.t) (h : Heap) : Heap :=
  fun r' => if Nat.eqb r' r then c else h r'.

Definition at_ref {A} (r : ref) (m : M LedController.t A) : M Heap A :=
  zoom (fun h => h r) (heap_set r) m.

Module DeviceInfo.
Record t : Type := mk
  { device_id : string;
    device_type : string }.
End DeviceInfo.

Module LedDevice.
Record t : Type := mk
  { device_id : string;
    controller : ref }.

Definition info (d : t) : DeviceInfo.t := DeviceInfo.mk (device_id d) "led".

Definition state (d : t) : M Heap LedState :=
  at_ref (controller d) LedController.state.

Definition set_power (d : t) (is_on : bool) : M Heap LedState :=
  at_ref (controller d) (LedController.set_power is_on).

Definition set_brightness (d : t) (brightness : Float.t) : M Heap LedState :=
  at_ref (controller d) (LedController.set_brightness brightness).

Definition close (d : t) : M Heap unit :=
  at_ref (controller d) LedController.close.
End LedDevice.

Module DeviceRegistry.
(** [get_led_calls] is a ghost field: the identifiers [get_led] was
    asked for, in order.  No code reads it. *)
Record t : Type := mk
  { _lock : Lock;
    _led_devices : dict LedDevice.t;
    get_led_calls : list string }.

Definition new : t := mk false [] [].

Definition set_lock (l : Lock) (r : t) : t :=
  mk l (_led_devices r) (get_led_calls r).
Definition set_led_devices (d : dict LedDevice.t) (r : t) : t :=
  mk (_lock r) d (get_led_calls r).
Definition record_get_led (device_id : string) (r : t) : t :=
  mk (_lock r) (_led_devices r) (get_led_calls r ++ [device_id]).

Definition register_led (device : LedDevice.t) : M t unit :=
  with_lock _lock set_lock
    (modify (fun r =>
       set_led_devices
         (dict_set (LedDevice.device_id device) device (_led_devices r)) r)).

Definition list_devices : M t (list DeviceInfo.t) :=
  with_lock _lock set_lock
    (gets (fun r => map LedDevice.info (dict_values (_led_devices r)))).

Definition get_led (device_id : string) : M t LedDevice.t :=
  modify (record_get_led device_id) ;;
  with_lock _lock set_lock
    (device <- gets (fun r => dict_get device_id (_led_devices r)) ;;
     match device with
     | None => raise (KeyError device_id)
     | Some d => ret d
     end).

(** The registry and the heap of the controllers it refers to. *)
Definition on_registry {A} (m : M t A) : M (t * Heap) A :=
  zoom fst (fun r w => (r, snd w)) m.
Definition on_heap {A} (m : M Heap A) : M (t * Heap) A :=
  zoom snd (fun h w => (fst w, h)) m.

Definition close : M (t * Heap) unit :=
  devices <- on_registry
    (with_lock _lock set_lock
       (ds <- gets (fun r => dict_values (_led_devices r)) ;;
        modify (set_led_devices []) ;;
        ret ds)) ;;
  on_heap (for_each devices LedDevice.close).
End DeviceRegistry.

(* ================================================================== *)
(** ** Python values of the action dictionaries *)

(** The values a JSON document decodes to ([Any] in the annotations). *)
#[warnings="-register-all"]
Inductive pyval : Type :=
| PyNone
| PyBool (b : bool)
| PyInt (n : Z)
| PyFloat (x : Float.t)
| PyStr (s : string)
| PyList (l : list pyval)
| PyDict (d : list (string * pyval)).

(** The parts of the built-ins [str] and [float] that are not written
    out here: the text of a value that is not a string, and the parsing
    of a string as a float ([None] is the ValueError). *)
Class Builtins : Type :=
  { repr : pyval -> string;
    float_of_str : string -> option Float.t }.

Section Builtin.
Context `{Builtins}.

(** [str(v)] *)
Definition py_str (v : pyval) : string :=
  match v with
  | PyStr s => s
  | _ => repr v
  end.

(** [bool(v)] *)
Definition py_bool (v : pyval) : bool :=
  match v with
  | PyNone => false
  | PyBool b => b
  | PyInt n => negb (Z.eqb n 0)
  | PyFloat x => negb (x =? Float.zero)%float
  | PyStr s => negb (String.eqb s "")
  | PyList l => match l with [] => false | _ => true end
  | PyDict d => match d with [] => false | _ => true end
  end.

(** [float(v)]: the float, or the exception raised. *)
Definition py_float (v : pyval) : Float.t + exn :=
  match v with
  | PyFloat x => inl x
  | PyBool b => inl (if b then Float.one else Float.zero)
  | PyInt n =>
      match Float.of_int n with
      | Some x => inl x
      | None => inr OverflowError
      end
  | PyStr s =>
      match float_of_str s with
      | Some x => inl x
      | None => inr ValueError
      end
  | PyNone | PyList _ | PyDict _ => inr TypeError
  end.
End Builtin.

(** [str.isspace] on the code points below 256. *)
Definition isspace (c : ascii) : bool :=
  let n := nat_of_ascii c in
  ((9 <=? n) && (n <=? 13) || (28 <=? n) && (n <=? 32)
   || (n =? 133) || (n =? 160))%nat.

Fixpoint lstrip (s : string) : string :=
  match s with
  | EmptyString => EmptyString
  | String c s' => if isspace c then lstrip s' else s
  end.

Fixpoint rstrip (s : string) : string :=
  match s with
  | EmptyString => EmptyString
  | String c s' =>
      match rstrip s' with
      | EmptyString => if isspace c then EmptyString else String c EmptyString
      | r => String c r
      end
  end.

(** [s.strip()] *)
Definition strip (s : string) : string := rstrip (lstrip s).

(* ================================================================== *)
(** ** app/domain/scenarios.py *)

Module Scenario.
Record t : Type := mk
  { scenario_id : string;
    name : string;
    actions : list (dict pyval) }.
End Scenario.

Module ScenarioRegistry.
Record t : Type := mk
  { _lock : Lock;
    _scenarios : dict Scenario.t }.

Definition new : t := mk false [].

Definition set_lock (l : Lock) (r : t) : t := mk l (_scenarios r).
Definition set_scenarios (d : dict Scenario.t) (r : t) : t := mk (_lock r) d.

Definition list : M t (list Scenario.t) :=
  with_lock _lock set_lock (gets (fun r => dict_values (_scenarios r))).

Definition upsert (scenario : Scenario.t) : M t unit :=
  with_lock _lock set_lock
    (modify (fun r =>
       set_scenarios
         (dict_set (Scenario.scenario_id scenario) scenario (_scenarios r)) r)).

Definition get (scenario_id : string) : M t Scenario.t :=
  with_lock _lock set_lock
    (scenario <- gets (fun r => dict_get scenario_id (_scenarios r)) ;;
     match scenario with
     | None => raise (KeyError scenario_id)
     | Some sc => ret sc
     end).
End ScenarioRegistry.

(* ================================================================== *)
(** ** app/api/routes_scenarios.py *)

Module Routes.
(** What the handlers reach through [request.app.state], and the heap. *)
Record App : Type := mkApp
  { scenarios : ScenarioRegistry.t;
    registry : DeviceRegistry.t;
    heap : Heap }.

Definition on_scenarios {A} (m : M ScenarioRegistry.t A) : M App A :=
  zoom scenarios (fun r a => mkApp r (registry a) (heap a)) m.
Definition on_devices {A} (m : M DeviceRegistry.t A) : M App A :=
  zoom registry (fun r a => mkApp (scenarios a) r (heap a)) m.
Definition on_heap {A} (m : M Heap A) : M App A :=
  zoom heap (fun h a => mkApp (scenarios a) (registry a) h) m.

(** One entry of the [executed] list. *)
Record Executed : Type := mkExecuted
  { type : string;
    device_id : string;
    state : LedState }.

Record TriggerResult : Type := mkTriggerResult
  { scenario_id : string;
    executed : list Executed }.

Section Trigger.
Context `{Builtins}.

Definition action_type_of (action : dict pyval) : string :=
  strip (py_str (dict_get_default "type" (PyStr "") action)).

Definition device_id_of (action : dict pyval) : string :=
  strip (py_str (dict_get_default "device_id" (PyStr "") action)).

(** The body of the loop, on the [executed] list built so far. *)
Definition run_action (action : dict pyval) (executed : list Executed)
  : M App (list Executed) :=
  let action_type := action_type_of action in
  let device_id := device_id_of action in
  if String.eqb device_id "" then ret executed
  else if String.eqb action_type "set_power" then
    let is_on := py_bool (dict_get_default "is_on" (PyBool false) action) in
    device <- on_devices (DeviceRegistry.get_led device_id) ;;
    state <- on_heap (LedDevice.set_power device is_on) ;;
    ret (executed ++ [mkExecuted action_type device_id state])
  else if String.eqb action_type "set_brightness" then
    brightness <-
      eval (py_float
              (dict_get_default "brightness" (PyFloat Float.zero) action)) ;;
    device <- on_devices (DeviceRegistry.get_led device_id) ;;
    state <- on_heap (LedDevice.set_brightness device brightness) ;;
    ret (executed ++ [mkExecuted action_type device_id state])
  else ret executed.

Fixpoint run_actions (actions : list (dict pyval)) (executed : list Executed)
  : M App (list Executed) :=
  match actions with
  | [] => ret executed
  | action :: rest =>
      executed' <- run_action action executed ;;
      run_actions rest executed'
  end.

Definition trigger_scenario (scenario_id : string) : M App TriggerResult :=
  scenario <-
    except_KeyError
      (on_scenarios (ScenarioRegistry.get scenario_id))
      (fun _ => raise (HTTPException HTTP_404_NOT_FOUND "Not found")) ;;
  executed <- run_actions (Scenario.actions scenario) [] ;;
  ret (mkTriggerResult (Scenario.scenario_id scenario) executed).
End Trigger.
End Routes.

(* ================================================================== *)
(** ** Vocabulary of the properties *)

(** The state an outcome leaves behind. *)
Definition outcome_state {S A} (o : outcome S A) : S :=
  match o with
  | Returned s _ => s
  | Raised s _ => s
  | Blocked s => s
  end.

(** The invariant of an observable state. *)
Definition state_invariant (st : LedState) : Prop :=
  is_on st = (Float.zero <? brightness st)%float
  /\ (Float.zero <=? brightness st)%float = true
  /\ (brightness st <=? Float.one)%float = true.

Definition OFF : LedState := mkLedState false Float.zero.

(** The state a controller holds, as [state()] would show it. *)
Definition observable (c : LedController.t) : LedState :=
  mkLedState (LedController._is_on c) (LedController._brightness c).

(** Sequences of controller operations. *)
Module LedOps.
Inductive op : Type :=
| SetPower (is_on : bool)
| SetBrightness (brightness : Float.t)
| State.

Definition run (o : op) : M LedController.t LedState :=
  match o with
  | SetPower is_on => LedController.set_power is_on
  | SetBrightness b => LedController.set_brightness b
  | State => LedController.state
  end.

(** Run the operations in turn; the states they returned, in order. *)
Fixpoint run_all (os : list op) : M LedController.t (list LedState) :=
  match os with
  | [] => ret []
  | o :: os' =>
      st <- run o ;;
      sts <- run_all os' ;;
      ret (st :: sts)
  end.

Definition no_nan (o : op) : Prop :=
  match o with
  | SetBrightness b => Float.is_nan b = false
  | _ => True
  end.
End LedOps.


(** What a call leaves of an idle mock. *)
Definition mock_after (c : PwmOutput.call) (m : MockPwmOutput.t)
  : MockPwmOutput.t :=
  match c with
  | PwmOutput.Start d | PwmOutput.ChangeDutyCycle d =>
      MockPwmOutput.mk (MockPwmOutput.frequency_hz m) d true false
  | PwmOutput.Stop =>
      MockPwmOutput.mk (MockPwmOutput.frequency_hz m) Float.zero false false
  | PwmOutput.Close => m
  end.

(** The brightness [set_power(True)] turns the light on with. *)
Definition power_on_brightness (b : Float.t) : Float.t :=
  if (b <=? Float.zero)%float then Float.one else b.

Module Engine.
Section Engine.
Context `{Builtins}.

(** The actions the loop does not skip. *)
Definition dispatched (action : dict pyval) : bool :=
  negb (String.eqb (Routes.device_id_of action) "")
  && (String.eqb (Routes.action_type_of action) "set_power"
      || String.eqb (Routes.action_type_of action) "set_brightness").


(** What a dispatched action does to the devices. *)
Definition dispatch (action : dict pyval) : M Routes.App LedState :=
  let device_id := Routes.device_id_of action in
  if String.eqb (Routes.action_type_of action) "set_power" then
    device <- Routes.on_devices (DeviceRegistry.get_led device_id) ;;
    Routes.on_heap
      (LedDevice.set_power device
         (py_bool (dict_get_default "is_on" (PyBool false) action)))
  else
    brightness <-
      eval (py_float
              (dict_get_default "brightness" (PyFloat Float.zero) action)) ;;
    device <- Routes.on_devices (DeviceRegistry.get_led device_id) ;;
    Routes.on_heap (LedDevice.set_brightness device brightness).

(** A dispatched action gets as far as the lookup of its device when the
    conversion of its value does not raise. *)
Definition reaches_lookup (action : dict pyval) : Prop :=
  dispatched action = true
  /\ (Routes.action_type_of action = "set_brightness"%string ->
      exists x,
        py_float (dict_get_default "brightness" (PyFloat Float.zero) action)
        = inl x).

Definition record_of (action : dict pyval) (st : LedState) : Routes.Executed :=
  Routes.mkExecuted (Routes.action_type_of action) (Routes.device_id_of action) st.

(** Dispatch the actions in turn, collecting one record for each. *)
Fixpoint dispatch_all (actions : list (dict pyval))
  : M Routes.App (list Routes.Executed) :=
  match actions with
  | [] => ret []
  | action :: rest =>
      st <- dispatch action ;;
      records <- dispatch_all rest ;;
      ret (record_of action st :: records)
  end.
End Engine.
End Engine.

(* ================================================================== *)
(** ** Sample objects *)

Module Sample.
(** A stand-in for the built-ins, exact on the strings used below. *)
Definition builtins : Builtins :=
  {| repr := fun _ => "<object>"%string;
     float_of_str := fun s => if String.eqb s "nan" then Some Float.nan else None |}.

Definition mock : PwmOutput.t := PwmOutput.of_mock (MockPwmOutput.new 1000).

Definition reliable_gpio : RpiPwmOutput.Gpio :=
  RpiPwmOutput.mkGpio [] (fun _ _ => None).

Definition rpi : RpiPwmOutput.t :=
  RpiPwmOutput.mk 18 1000 false reliable_gpio false.

Definition controller : LedController.t := LedController.new mock.

Definition half : Float.t := S754_finite false 4503599627370496 (-53).

Definition dimmed : LedController.t :=
  LedController.mk mock false true half.

(** A heap with a mock-backed controller at every reference. *)
Definition heap : Heap := fun _ => controller.

Definition x : LedDevice.t := LedDevice.mk "x" 0.
Definition y : LedDevice.t := LedDevice.mk "y" 1.

Definition registry : DeviceRegistry.t :=
  DeviceRegistry.mk false [("x"%string, x); ("y"%string, y)] [].

Definition noop_then_power_on : list (dict pyval) :=
  [ [("type"%string, PyStr "noop"); ("device_id"%string, PyStr "")];
    [("type"%string, PyStr "set_power"); ("device_id"%string, PyStr "x");
     ("is_on"%string, PyBool true)] ].

Definition power_on_then_missing : list (dict pyval) :=
  [ [("type"%string, PyStr "set_power"); ("device_id"%string, PyStr "x");
     ("is_on"%string, PyBool true)];
    [("type"%string, PyStr "set_brightness"); ("device_id"%string, PyStr "ghost");
     ("brightness"%string, PyFloat half)];
    [("type"%string, PyStr "set_power"); ("device_id"%string, PyStr "y");
     ("is_on"%string, PyBool true)] ].

Definition defaults : list (dict pyval) :=
  [ [("type"%string, PyStr "set_brightness"); ("device_id"%string, PyStr "x")];
    [("type"%string, PyStr "set_power"); ("device_id"%string, PyStr "y")] ].

Definition brightness_nan : list (dict pyval) :=
  [ [("type"%string, PyStr "set_brightness"); ("device_id"%string, PyStr "x");
     ("brightness"%string, PyStr "nan")] ].


Definition scenarios : ScenarioRegistry.t :=
  ScenarioRegistry.mk false
    [ ("evening"%string, Scenario.mk "evening" "Evening" noop_then_power_on);
      ("broken"%string, Scenario.mk "broken" "Broken" power_on_then_missing);
      ("defaults"%string, Scenario.mk "defaults" "Defaults" defaults);
    ("nan"%string, Scenario.mk "nan" "Not a number" brightness_nan) ].

Definition app : Routes.App := Routes.mkApp scenarios registry heap.
End Sample.

(* ================================================================== *)
(** ** More of the built-ins *)

(** [c.lower()] on the code points below 256: the capitals of ASCII and
    of Latin-1 move up by 32. *)
Definition lower_char (c : ascii) : ascii :=
  let n := nat_of_ascii c in
  if ((65 <=? n) && (n <=? 90)
      || (192 <=? n) && (n <=? 214)
      || (216 <=? n) && (n <=? 222))%nat
  then ascii_of_nat (n + 32)
  else c.

(** [s.lower()] *)
Fixpoint lower (s : string) : string :=
  match s with
  | EmptyString => EmptyString
  | String c s' => String (lower_char c) (lower s')
  end.

(** [s.split(",")] *)
Fixpoint split_comma (s : string) : list string :=
  match s with
  | EmptyString => [EmptyString]
  | String c s' =>
      if Ascii.eqb c ","
      then EmptyString :: split_comma s'
      else
        match split_comma s' with
        | part :: parts => String c part :: parts
        | [] => [String c EmptyString]
        end
  end.

Fixpoint is_ascii (s : string) : bool :=
  match s with
  | EmptyString => true
  | String c s' => (nat_of_ascii c <? 128)%nat && is_ascii s'
  end.

(** [secrets.compare_digest(a, b)] on two [str]: equality, and a
    TypeError when either holds a code point outside ASCII. *)
Definition compare_digest (a b : string) : bool + exn :=
  if is_ascii a && is_ascii b then inl (String.eqb a b) else inr TypeError.

(** [int(text)] is not written out: [None] is the ValueError. *)
Class IntBuiltin : Type :=
  { int_of_str : string -> option Z }.

(** [x / y] on floats. *)
Definition float_div (x y : Float.t) : Float.t :=
  SFdiv Float.prec Float.emax x y.

(** [x - y] on floats. *)
Definition float_sub (x y : Float.t) : Float.t :=
  SFsub Float.prec Float.emax x y.

(** A [set[int]]: a list without repetition; [add] keeps an element that
    is there. *)
Definition int_set : Type := list Z.

Fixpoint set_add (n : Z) (s : int_set) : int_set :=
  match s with
  | [] => [n]
  | m :: s' => if Z.eqb m n then s else m :: set_add n s'
  end.

Definition set_contains (n : Z) (s : int_set) : bool :=
  existsb (Z.eqb n) s.

Definition HTTP_401_UNAUTHORIZED : Z := 401.

(* ================================================================== *)
(** ** app/config.py *)

Module Settings.
Record t : Type := mk
  { api_token : string;
    public_base_url : string;
    gpio_backend : string;
    led_gpio_pin : Z;
    pwm_frequency_hz : Z;
    ssl_certfile : option string;
    ssl_keyfile : option string;
    log_level : string;
    telegram_bot_token : option string;
    telegram_allowed_chat_ids : string;
    telegram_api_url : string;
    telegram_tls_verify : bool;
    device_id : string }.

Section AllowedChatIds.
Context `{IntBuiltin}.

(** The loop of [allowed_chat_ids] over the parts, on the set built so
    far. *)
Fixpoint add_parts (parts : list string) (result : int_set)
  : int_set + exn :=
  match parts with
  | [] => inl result
  | part :: rest =>
      let part := strip part in
      if String.eqb part "" then add_parts rest result
      else
        match int_of_str part with
        | None => inr ValueError
        | Some n => add_parts rest (set_add n result)
        end
  end.

Definition allowed_chat_ids (self : t) : int_set + exn :=
  let value := strip (telegram_allowed_chat_ids self) in
  if String.eqb value "" then inl []
  else add_parts (split_comma value) [].
End AllowedChatIds.
End Settings.

(* ================================================================== *)
(** ** app/api/auth.py *)

Module Auth.
(** The credentials the bearer scheme hands over. *)
Record HTTPAuthorizationCredentials : Type := mkCredentials
  { scheme : string;
    credentials : string }.

Record AuthContext : Type := mkAuthContext
  { subject : string }.

Definition require_auth (settings : Settings.t)
  (creds : option HTTPAuthorizationCredentials) : AuthContext + exn :=
  match creds with
  | None => inr (HTTPException HTTP_401_UNAUTHORIZED "Unauthorized")
  | Some c =>
      if negb (String.eqb (lower (scheme c)) "bearer")
      then inr (HTTPException HTTP_401_UNAUTHORIZED "Unauthorized")
      else
        match compare_digest (credentials c) (Settings.api_token settings) with
        | inr e => inr e
        | inl same =>
            if negb same
            then inr (HTTPException HTTP_401_UNAUTHORIZED "Unauthorized")
            else inl (mkAuthContext "api_token")
        end
  end.
End Auth.

(* ================================================================== *)
(** ** app/gpio/factory.py *)

Module GpioFactory.
(** [rpi_gpio] is the driver module, [None] where it cannot be
    imported. *)
Definition create_pwm_output (backend : string)
  (rpi_gpio : option RpiPwmOutput.Gpio) (pin frequency_hz : Z)
  : PwmOutput.t + exn :=
  let backend_norm := lower (strip backend) in
  if String.eqb backend_norm "mock" then
    inl (PwmOutput.of_mock (MockPwmOutput.new frequency_hz))
  else if String.eqb backend_norm "rpi" then
    match RpiPwmOutput.new rpi_gpio pin frequency_hz with
    | inl r => inl (PwmOutput.of_rpi r)
    | inr e => inr e
    end
  else inr ValueError.
End GpioFactory.

(* ================================================================== *)
(** ** app/api/factory.py *)

Module AppFactory.
(** [build_registry].  The controller it creates is a new object: it is
    stored at [fresh], a reference no other object has.  The lock of the
    new registry is free, so that [register_led] returns: the registry
    returned is the state it leaves. *)
Definition build_registry (settings : Settings.t)
  (rpi_gpio : option RpiPwmOutput.Gpio) (fresh : ref) (h : Heap)
  : (DeviceRegistry.t * Heap) + exn :=
  let registry := DeviceRegistry.new in
  match
    GpioFactory.create_pwm_output (Settings.gpio_backend settings) rpi_gpio
      (Settings.led_gpio_pin settings) (Settings.pwm_frequency_hz settings)
  with
  | inr e => inr e
  | inl pwm =>
      let h' := heap_set fresh (LedController.new pwm) h in
      inl (outcome_state
             (DeviceRegistry.register_led
                (LedDevice.mk (Settings.device_id settings) fresh) registry),
           h')
  end.
End AppFactory.

(* ================================================================== *)
(** ** app/api/routes_led.py *)

Module RoutesLed.
Import Routes.

(** The request bodies of [app/api/schemas.py], a file that is not among
    the sources: only the field each handler reads is known. *)
Record SetPowerIn : Type := mkSetPowerIn { power_is_on : bool }.
Record SetBrightnessIn : Type := mkSetBrightnessIn { level : Float.t }.

(** [LedStateOut(is_on=state.is_on, brightness=state.brightness)] *)
Definition LedStateOut (state : LedState) : LedState :=
  mkLedState (is_on state) (brightness state).

Definition not_found {A} : M App A :=
  raise (HTTPException HTTP_404_NOT_FOUND "Not found").

Definition list_devices : M App (list DeviceInfo.t) :=
  devices <- on_devices DeviceRegistry.list_devices ;;
  ret (map (fun d => DeviceInfo.mk (DeviceInfo.device_id d)
                       (DeviceInfo.device_type d)) devices).

Definition get_led_state (device_id : string) : M App LedState :=
  device <- except_KeyError
              (on_devices (DeviceRegistry.get_led device_id))
              (fun _ => not_found) ;;
  state <- on_heap (LedDevice.state device) ;;
  ret (LedStateOut state).

Definition set_led_power (device_id : string) (payload : SetPowerIn)
  : M App LedState :=
  device <- except_KeyError
              (on_devices (DeviceRegistry.get_led device_id))
              (fun _ => not_found) ;;
  state <- on_heap (LedDevice.set_power device (power_is_on payload)) ;;
  ret (LedStateOut state).

Definition set_led_brightness (device_id : string) (payload : SetBrightnessIn)
  : M App LedState :=
  device <- except_KeyError
              (on_devices (DeviceRegistry.get_led device_id))
              (fun _ => not_found) ;;
  state <- on_heap (LedDevice.set_brightness device (level payload)) ;;
  ret (LedStateOut state).
End RoutesLed.

(* ================================================================== *)
(** ** app/api/routes_scenarios.py, the other handlers *)

Module ScenarioRoutes.
Import Routes.

Record ScenarioOut : Type := mkScenarioOut
  { out_scenario_id : string;
    out_name : string;
    out_actions : list (dict pyval) }.

Record ScenarioUpsertIn : Type := mkScenarioUpsertIn
  { in_name : string;
    in_actions : list (dict pyval) }.

Definition list_scenarios : M App (list ScenarioOut) :=
  all <- on_scenarios ScenarioRegistry.list ;;
  ret (map (fun s => mkScenarioOut (Scenario.scenario_id s) (Scenario.name s)
                       (Scenario.actions s)) all).

Definition upsert_scenario (scenario_id : string) (payload : ScenarioUpsertIn)
  : M App ScenarioOut :=
  let scenario :=
    Scenario.mk (strip scenario_id) (in_name payload) (in_actions payload) in
  on_scenarios (ScenarioRegistry.upsert scenario) ;;
  ret (mkScenarioOut (Scenario.scenario_id scenario) (Scenario.name scenario)
         (Scenario.actions scenario)).
End ScenarioRoutes.

(* ================================================================== *)
(** ** app/api/routes_system.py *)

Module RoutesSystem.
Import Routes.

(** The response of [/status], with the fields the handler fills. *)
Record StatusOut : Type := mkStatusOut
  { service : string;
    uptime_s : Float.t;
    gpio_backend : string;
    devices : list DeviceInfo.t;
    led_states : dict LedState }.

Definition health : dict string := [("status"%string, "ok"%string)].

(** The loop of [status_endpoint] over the devices listed, on the
    dictionary of states built so far. *)
Fixpoint collect_led_states (devices : list DeviceInfo.t)
  (led_states : dict LedState) : M App (dict LedState) :=
  match devices with
  | [] => ret led_states
  | device :: rest =>
      if negb (String.eqb (DeviceInfo.device_type device) "led")
      then collect_led_states rest led_states
      else
        d <- on_devices (DeviceRegistry.get_led (DeviceInfo.device_id device)) ;;
        state <- on_heap (LedDevice.state d) ;;
        collect_led_states rest
          (dict_set (DeviceInfo.device_id device)
             (mkLedState (is_on state) (brightness state)) led_states)
  end.

(** [now] is what [time.time()] returns; [started_at] is the attribute
    of the application state, [None] when it is not set. *)
Definition status_endpoint (now : Float.t) (started_at : option Float.t)
  (settings : Settings.t) : M App StatusOut :=
  let started_at := match started_at with Some t => t | None => now end in
  let uptime := float_sub now started_at in
  devices <- on_devices DeviceRegistry.list_devices ;;
  led_states <- collect_led_states devices [] ;;
  ret (mkStatusOut "nightlight" uptime (Settings.gpio_backend settings)
         (map (fun d => DeviceInfo.mk (DeviceInfo.device_id d)
                          (DeviceInfo.device_type d)) devices)
         led_states).
End RoutesSystem.

(* ================================================================== *)
(** ** app/telegram_bot/bot.py *)

Module Bot.
(** [app/telegram_bot/api_client.py] *)
Record NightlightApiClient : Type := mkClient
  { base_url : string;
    api_token : string;
    device_id : string;
    tls_verify : bool }.

Record BotContext : Type := mkBotContext
  { api : NightlightApiClient;
    allowed_chat_ids : int_set }.

(** What the handlers read of a Telegram update. *)
Record Chat : Type := mkChat { id : Z }.
Record Update : Type := mkUpdate { effective_chat : option Chat }.

Section Parse.
Context `{IntBuiltin}.

(** An [int] between 0 and 100 converts to a float without error. *)
Definition parse_brightness_arg (value : string) : Float.t + exn :=
  let text := strip value in
  match int_of_str text with
  | None => inr ValueError
  | Some percent =>
      let percent := if (percent <? 0)%Z then 0%Z else percent in
      let percent := if (percent >? 100)%Z then 100%Z else percent in
      match Float.of_int percent with
      | Some x => inl (float_div x Float.hundred)
      | None => inr OverflowError
      end
  end.
End Parse.

Definition _is_allowed (update : Update) (ctx : BotContext) : bool :=
  match effective_chat update with
  | None => false
  | Some chat =>
      match allowed_chat_ids ctx with
      | [] => true
      | _ => set_contains (id chat) (allowed_chat_ids ctx)
      end
  end.
End Bot.

(* ================================================================== *)
(** ** Vocabulary of the further properties *)

(** The keys of a dictionary, in order. *)
Definition dict_keys {V} (d : dict V) : list string := map fst d.

(** Every entry of the registry sits under the identifier of its device,
    and no identifier occurs twice. *)
Definition keyed_by_id (devices : dict LedDevice.t) : Prop :=
  NoDup (dict_keys devices)
  /\ Forall (fun kv => fst kv = LedDevice.device_id (snd kv)) devices.

(** The last device of a list that bears an identifier. *)
Definition last_with_id (id : string) (ds : list LedDevice.t)
  : option LedDevice.t :=
  find (fun d => String.eqb (LedDevice.device_id d) id) (rev ds).

(** Two heaps that hold the same controllers. *)
Definition same_heap (h h' : Heap) : Prop := forall r, h r = h' r.

(** The states of the controllers of a list of devices, under the
    identifiers of the devices. *)
Definition reported_states (h : Heap) (ds : list LedDevice.t) : dict LedState :=
  map (fun d => (LedDevice.device_id d, observable (h (LedDevice.controller d))))
    ds.

(** A controller at rest on a mock at rest. *)
Definition idle_on_mock (c : LedController.t) : Prop :=
  LedController._lock c = false
  /\ exists m, PwmOutput.backend (LedController.pwm c) = PwmOutput.Mock m
               /\ MockPwmOutput._lock m = false.

(** The mock mirrors the controller: started exactly when the light is
    on, with the duty cycle of its brightness, and at [0.0] when off. *)
Definition mock_mirrors (c : LedController.t) : Prop :=
  LedController._lock c = false
  /\ exists m,
       PwmOutput.backend (LedController.pwm c) = PwmOutput.Mock m
       /\ MockPwmOutput._lock m = false
       /\ MockPwmOutput.started m = LedController._is_on c
       /\ MockPwmOutput.duty_cycle_percent m
          = if LedController._is_on c
            then (LedController._brightness c * Float.hundred)%float
            else Float.zero.

(** A part of the allow-list that names the chat [n]: not blank once
    trimmed, and read by [int] as [n]. *)
Definition names `{IntBuiltin} (part : string) (n : Z) : Prop :=
  strip part <> ""%string /\ int_of_str (strip part) = Some n.

(** The percentage [parse_brightness_arg] keeps of an integer. *)
Definition clamp_percent (n : Z) : Z :=
  if (n <? 0)%Z then 0%Z else if (n >? 100)%Z then 100%Z else n.

(** An identifier that is not empty and has no space at either end. *)
Definition trimmed (id : string) : Prop :=
  id <> ""%string /\ strip id = id.

(** A percentage whose hundredth is a number within [0, 1]. *)
Definition percent_ok (p : Z) : bool :=
  match Float.of_int p with
  | Some y =>
      let x := float_div y Float.hundred in
      negb (Float.is_nan x) && (Float.zero <=? x)%float
      && (x <=? Float.one)%float
  | None => false
  end.

(** Sequences of calls to the hardware backend. *)
Module RpiOps.
Inductive op : Type :=
| Start (duty : Float.t)
| ChangeDutyCycle (duty : Float.t)
| Stop.

Definition run (o : op) : M RpiPwmOutput.t unit :=
  match o with
  | Start d => RpiPwmOutput.start d
  | ChangeDutyCycle d => RpiPwmOutput.change_duty_cycle d
  | Stop => RpiPwmOutput.stop
  end.

(** Whether the signal runs after a history of driver calls, and whether
    the history only changed or stopped a signal that was running. *)
Fixpoint scan (running : bool) (log : list RpiPwmOutput.GpioCall)
  : bool * bool :=
  match log with
  | [] => (running, true)
  | c :: log' =>
      match c with
      | RpiPwmOutput.PWM_start _ => scan true log'
      | RpiPwmOutput.PWM_ChangeDutyCycle _ =>
          if running then scan true log' else (running, false)
      | RpiPwmOutput.PWM_stop =>
          if running then scan false log' else (running, false)
      | _ => scan running log'
      end
  end.

Definition running (log : list RpiPwmOutput.GpioCall) : bool :=
  fst (scan false log).

End RpiOps.

(** Further sample objects. *)
Module Sample2.
(** A stand-in for [int]: exact on the plain decimal numerals. *)
Fixpoint digits (s : string) (acc : Z) : option Z :=
  match s with
  | EmptyString => Some acc
  | String c s' =>
      let n := nat_of_ascii c in
      if ((48 <=? n) && (n <=? 57))%nat
      then digits s' (10 * acc + Z.of_nat (n - 48))%Z
      else None
  end.

Definition int_builtin : IntBuiltin :=
  {| int_of_str := fun s =>
       match s with
       | EmptyString => None
       | String "-" s' =>
           match s' with
           | EmptyString => None
           | _ => option_map Z.opp (digits s' 0)
           end
       | _ => digits s 0
       end |}.

Definition settings : Settings.t :=
  Settings.mk "0123456789abcdef" "https://localhost:8443" " Mock " 18 800
    None None "INFO" None " 42, -7 ,,42 " "https://localhost:8443" true
    "nightlight".

Definition lit : LedController.t :=
  LedController.mk
    (PwmOutput.mk
       (PwmOutput.Mock
          (MockPwmOutput.mk 1000 (Sample.half * Float.hundred)%float true false))
       [])
    false true Sample.half.

Definition hardware : LedController.t :=
  LedController.new (PwmOutput.of_rpi Sample.rpi).

Definition hardware_heap : Heap :=
  fun r => match r with O => hardware | _ => Sample.controller end.

(** A [set_brightness] for a device that is not registered, whose
    brightness is the JSON [null]. *)
Definition null_brightness_ghost : dict pyval :=
  [("type"%string, PyStr "set_brightness"); ("device_id"%string, PyStr "ghost");
   ("brightness"%string, PyNone)].

Definition power_on_then_null : list (dict pyval) :=
  [ [("type"%string, PyStr "set_power"); ("device_id"%string, PyStr "x");
     ("is_on"%string, PyBool true)];
    null_brightness_ghost;
    [("type"%string, PyStr "set_power"); ("device_id"%string, PyStr "y");
     ("is_on"%string, PyBool true)] ].

Definition null_app : Routes.App :=
  Routes.mkApp
    (ScenarioRegistry.mk false
       [("null"%string, Scenario.mk "null" "Null brightness" power_on_then_null)])
    Sample.registry Sample.heap.

(** Two entries that hold the same controller. *)
Definition shared_registry : DeviceRegistry.t :=
  DeviceRegistry.mk false
    [("a"%string, LedDevice.mk "a" 0); ("b"%string, LedDevice.mk "b" 0)] [].

(** A token of sixteen code points, the last one outside ASCII (U+00E9). *)
Definition accented : string :=
  ("0123456789abcde" ++ String (ascii_of_nat 233) "")%string.

Definition accented_settings : Settings.t :=
  Settings.mk accented "https://localhost:8443" " Mock " 18 800
    None None "INFO" None "" "https://localhost:8443" true "nightlight".
End Sample2.

(* ================================================================== *)
(** ** Proof tools *)

Arguments PwmOutput.send : simpl never.
Arguments _clamp : simpl never.
Arguments Float.eqb : simpl never.
Arguments Float.leb : simpl never.
Arguments Float.ltb : simpl never.
Arguments Float.mul : simpl never.

Ltac unfold_py :=
  unfold with_lock, acquire, release, try_finally, except_KeyError, zoom,
    bind, ret, gets, modify, raise in *.

(* ================================================================== *)
(** ** Facts about float comparisons *)

Module FloatFacts.
Example literals :
  Float.of_int 0 = Some Float.zero
  /\ Float.of_int 1 = Some Float.one
  /\ Float.of_int 100 = Some Float.hundred
  /\ Float.of_int (-1) = Some Float.minus_one
  /\ Float.of_int 2 = Some Float.two
  /\ (Float.one * Float.hundred)%float = Float.hundred.
Proof. repeat split. Qed.

Lemma compare_antisym (x y : Float.t) :
  SFcompare x y = option_map CompOpp (SFcompare y x).
Proof.
  destruct x as [sx|sx| |sx mx ex], y as [sy|sy| |sy my ey]; simpl;
    try reflexivity;
    try (destruct sx; reflexivity); try (destruct sy; reflexivity);
    try (destruct sx, sy; reflexivity).
  destruct sx, sy; try reflexivity.
  - rewrite (Z.compare_antisym ey ex).
    destruct (ey ?= ex)%Z; simpl; try reflexivity.
    rewrite CompOpp_involutive. f_equal.
    exact (Pos.compare_cont_antisym mx my Eq).
  - rewrite (Z.compare_antisym ey ex).
    destruct (ey ?= ex)%Z; simpl; try reflexivity.
    f_equal. symmetry. exact (Pos.compare_cont_antisym my mx Eq).
Qed.

Lemma compare_refl (x : Float.t) :
  Float.is_nan x = false -> SFcompare x x = Some Eq.
Proof.
  destruct x as [s|s| |s m e]; simpl; intros Hn; try discriminate;
    try reflexivity.
  - now destruct s.
  - rewrite Z.compare_refl.
    change (PosDef.Pos.compare_cont Eq m m) with (Pos.compare m m).
    rewrite Pos.compare_refl. now destruct s.
Qed.

Lemma eqb_refl (x : Float.t) : Float.is_nan x = false -> (x =? x)%float = true.
Proof.
  intros Hn. unfold Float.eqb, SFeqb. now rewrite compare_refl.
Qed.

(** [not (x < y)] and [not (x > y)] give the large comparisons, for
    numbers. *)
Lemma leb_of_not_gtb (x y : Float.t) :
  Float.is_nan x = false -> Float.is_nan y = false ->
  (x >? y)%float = false -> (x <=? y)%float = true.
Proof.
  unfold Float.gtb, Float.leb, SFltb, SFleb. intros Hx Hy.
  rewrite (compare_antisym x y).
  destruct (SFcompare y x) as [[]|] eqn:E; simpl; try easy.
  destruct x, y; simpl in *; discriminate.
Qed.

Lemma leb_of_not_ltb (x y : Float.t) :
  Float.is_nan x = false -> Float.is_nan y = false ->
  (x <? y)%float = false -> (y <=? x)%float = true.
Proof.
  unfold Float.ltb, Float.leb, SFltb, SFleb. intros Hx Hy.
  rewrite (compare_antisym y x).
  destruct (SFcompare x y) as [[]|] eqn:E; simpl; try easy.
  destruct x, y; simpl in *; discriminate.
Qed.

Lemma leb_not_nan_r (x y : Float.t) :
  (x <=? y)%float = true -> Float.is_nan y = false.
Proof.
  unfold Float.leb, SFleb. destruct x, y; simpl; easy.
Qed.

(** Against the literal [0.0]: a number is below, equal or above. *)
Lemma zero_ltb_iff (x : Float.t) :
  (Float.zero <=? x)%float = true ->
  (Float.zero <? x)%float = negb (x =? Float.zero)%float.
Proof.
  unfold Float.leb, Float.ltb, Float.eqb, SFleb, SFltb, SFeqb, Float.zero.
  destruct x as [s|s| |s m e]; simpl; try easy; now destruct s.
Qed.

Lemma not_leb_zero (x : Float.t) :
  Float.is_nan x = false ->
  (x <=? Float.zero)%float = false -> (Float.zero <? x)%float = true.
Proof.
  unfold Float.leb, Float.ltb, SFleb, SFltb, Float.zero.
  destruct x as [s|s| |s m e]; simpl; try easy; now destruct s.
Qed.


Lemma clamp_range (b : Float.t) :
  Float.is_nan b = false ->
  (Float.zero <=? _clamp b Float.zero Float.one)%float = true
  /\ (_clamp b Float.zero Float.one <=? Float.one)%float = true.
Proof.
  intros Hb. unfold _clamp.
  destruct (b <? Float.zero)%float eqn:Hlo; [now split|].
  destruct (b >? Float.one)%float eqn:Hhi; [now split|].
  split.
  - now apply leb_of_not_ltb.
  - now apply leb_of_not_gtb.
Qed.
Lemma ltb_zero_not_leb (x : Float.t) :
  (Float.zero <? x)%float = true -> (x <=? Float.zero)%float = false.
Proof.
  unfold Float.leb, Float.ltb, SFleb, SFltb, Float.zero.
  destruct x as [s|s| |s m e]; simpl; try easy; now destruct s.
Qed.
End FloatFacts.

Module BackendFacts.
Import PwmOutput.

(** Every call is logged, whatever becomes of it. *)
Lemma send_received (c : call) (p : t) :
  received (outcome_state (send c p)) = received p ++ [c].
Proof.
  destruct p as [i log]. unfold send, record. unfold_py; cbn.
  now destruct (run_impl c i).
Qed.

Lemma send_returned_received (c : call) (p p' : t) :
  send c p = Returned p' tt -> received p' = received p ++ [c].
Proof.
  intros E. rewrite <- (send_received c p). now rewrite E.
Qed.

Lemma send_mock (c : call) (m : MockPwmOutput.t) (log : list call) :
  MockPwmOutput._lock m = false ->
  send c (mk (Mock m) log) = Returned (mk (Mock (mock_after c m)) (log ++ [c])) tt.
Proof.
  destruct m as [f d s l]; simpl; intros ->.
  destruct c; unfold send, record, run_impl, run_mock, MockPwmOutput.start,
    MockPwmOutput.change_duty_cycle, MockPwmOutput.stop, MockPwmOutput.close;
    unfold_py; cbn; try reflexivity.
  now destruct s.
Qed.

(** A backend that has just stopped stops again without a word. *)
Lemma stop_twice (p p1 : t) :
  stop p = Returned p1 tt ->
  exists p2, stop p1 = Returned p2 tt /\ backend p2 = backend p1.
Proof.
  destruct p as [[m|r] log]; unfold stop.
  - destruct (MockPwmOutput._lock m) eqn:L.
    + destruct m as [f d s l]; simpl in L; subst l.
      unfold send, record, run_impl, run_mock, MockPwmOutput.stop.
      unfold_py; cbn. discriminate.
    + rewrite (send_mock Stop m log L). intros [= <-].
      rewrite send_mock by reflexivity. eexists; split; reflexivity.
  - destruct r as [pn f l g s].
    unfold send, record, run_impl, run_rpi, RpiPwmOutput.stop, RpiPwmOutput.gpio,
      RpiPwmOutput.driver.
    unfold_py; cbn.
    destruct l; cbn; [discriminate|].
    destruct s; cbn.
    + destruct (RpiPwmOutput.raises g (RpiPwmOutput.calls g) RpiPwmOutput.PWM_stop);
        cbn; [discriminate|].
      intros [= <-]. cbn. eexists; split; reflexivity.
    + intros [= <-]. cbn. eexists; split; reflexivity.
Qed.
End BackendFacts.

Module LedFacts.
Import LedController.

Lemma state_eq (c : t) :
  _lock c = false ->
  state c = Returned c (mkLedState (_is_on c) (_brightness c)).
Proof.
  destruct c as [p l o b]; simpl; intros ->.
  reflexivity.
Qed.

Lemma set_brightness_eq (c : t) (b : Float.t) :
  _lock c = false ->
  let r := _clamp b Float.zero Float.one in
  set_brightness b c =
    if (r =? Float.zero)%float then
      match PwmOutput.send PwmOutput.Stop (pwm c) with
      | Returned p _ => Returned (mk p false false r) OFF
      | Raised p e => Raised (mk p false (_is_on c) r) e
      | Blocked p => Blocked (mk p true (_is_on c) r)
      end
    else
      match
        PwmOutput.send (PwmOutput.ChangeDutyCycle (r * Float.hundred)%float)
          (pwm c)
      with
      | Returned p _ => Returned (mk p false true r) (mkLedState true r)
      | Raised p e => Raised (mk p false true r) e
      | Blocked p => Blocked (mk p true true r)
      end.
Proof.
  destruct c as [p l o x]; simpl; intros ->.
  unfold set_brightness, _apply, on_pwm, snapshot, PwmOutput.stop,
    PwmOutput.change_duty_cycle.
  unfold_py; cbn.
  destruct (_clamp b Float.zero Float.one =? Float.zero)%float; cbn.
  - now destruct (PwmOutput.send PwmOutput.Stop p).
  - now destruct (PwmOutput.send _ p).
Qed.

Lemma set_power_off_eq (c : t) :
  _lock c = false ->
  set_power false c =
    match PwmOutput.send PwmOutput.Stop (pwm c) with
    | Returned p _ => Returned (mk p false false Float.zero) OFF
    | Raised p e => Raised (mk p false (_is_on c) (_brightness c)) e
    | Blocked p => Blocked (mk p true (_is_on c) (_brightness c))
    end.
Proof.
  destruct c as [p l o x]; simpl; intros ->.
  unfold set_power, _apply, on_pwm, snapshot, PwmOutput.stop.
  unfold_py; cbn.
  now destruct (PwmOutput.send PwmOutput.Stop p).
Qed.

Lemma set_power_on_eq (c : t) :
  _lock c = false ->
  let b := power_on_brightness (_brightness c) in
  set_power true c =
    match
      PwmOutput.send (PwmOutput.ChangeDutyCycle (b * Float.hundred)%float)
        (pwm c)
    with
    | Returned p _ => Returned (mk p false true b) (mkLedState true b)
    | Raised p e => Raised (mk p false (_is_on c) b) e
    | Blocked p => Blocked (mk p true (_is_on c) b)
    end.
Proof.
  destruct c as [p l o x]; simpl; intros ->.
  unfold set_power, _apply, on_pwm, snapshot, PwmOutput.change_duty_cycle,
    power_on_brightness.
  unfold_py; cbn.
  destruct (x <=? Float.zero)%float; cbn;
    now destruct (PwmOutput.send _ p).
Qed.

Lemma close_eq (c : t) :
  _lock c = false ->
  close c =
    match PwmOutput.send PwmOutput.Stop (pwm c) with
    | Returned p _ =>
        match PwmOutput.send PwmOutput.Close p with
        | Returned p' _ => Returned (mk p' false (_is_on c) (_brightness c)) tt
        | Raised p' e => Raised (mk p' false (_is_on c) (_brightness c)) e
        | Blocked p' => Blocked (mk p' true (_is_on c) (_brightness c))
        end
    | Raised p e =>
        match PwmOutput.send PwmOutput.Close p with
        | Returned p' _ => Raised (mk p' false (_is_on c) (_brightness c)) e
        | Raised p' e' => Raised (mk p' false (_is_on c) (_brightness c)) e'
        | Blocked p' => Blocked (mk p' true (_is_on c) (_brightness c))
        end
    | Blocked p => Blocked (mk p true (_is_on c) (_brightness c))
    end.
Proof.
  destruct c as [p l o x]; simpl; intros ->.
  unfold close, on_pwm, PwmOutput.stop, PwmOutput.close.
  unfold_py; cbn.
  destruct (PwmOutput.send PwmOutput.Stop p) as [p1 []|p1 e|p1]; cbn;
    try reflexivity;
    now destruct (PwmOutput.send PwmOutput.Close p1) as [p2 []|p2 e'|p2].
Qed.
End LedFacts.

(* ================================================================== *)
(** ** The controller state machine *)

Module Controller.
Import LedController.

Lemma run_preserves_invariant (o : LedOps.op) (c c' : t) (st : LedState) :
  _lock c = false ->
  state_invariant (observable c) ->
  LedOps.no_nan o ->
  LedOps.run o c = Returned c' st ->
  state_invariant st /\ state_invariant (observable c') /\ _lock c' = false.
Proof.
  intros L (Hon & Hlo & Hhi) Hn. unfold observable in *; simpl in *.
  destruct o as [[|]|b|]; simpl.
  - rewrite (LedFacts.set_power_on_eq c L).
    destruct (PwmOutput.send _ (pwm c)) as [p []|p e|p]; try discriminate.
    intros [= <- <-]. unfold state_invariant, power_on_brightness; simpl.
    destruct (_brightness c <=? Float.zero)%float eqn:E.
    + repeat split; reflexivity.
    + pose proof (FloatFacts.leb_not_nan_r _ _ Hlo) as Hx.
      rewrite (FloatFacts.not_leb_zero _ Hx E). repeat split; auto.
  - rewrite (LedFacts.set_power_off_eq c L).
    destruct (PwmOutput.send _ (pwm c)) as [p []|p e|p]; try discriminate.
    intros [= <- <-]. repeat split; reflexivity.
  - rewrite (LedFacts.set_brightness_eq c b L).
    simpl in Hn.
    destruct (FloatFacts.clamp_range b Hn) as [Rlo Rhi].
    pose proof (FloatFacts.zero_ltb_iff _ Rlo) as Z.
    destruct (_clamp b Float.zero Float.one =? Float.zero)%float eqn:E;
      destruct (PwmOutput.send _ (pwm c)) as [p []|p e|p]; try discriminate;
      intros [= <- <-]; unfold state_invariant; simpl; rewrite ?Z;
      repeat split; auto.
  - rewrite (LedFacts.state_eq c L). intros [= <- <-].
    unfold state_invariant; simpl. auto.
Qed.

(** Between numbers the controller keeps its invariant: every state it
    shows is consistent and in range, as long as no brightness asked for
    is a NaN. *)
Lemma invariant_without_nan (os : list LedOps.op) :
  forall (c c' : t) (sts : list LedState),
    _lock c = false ->
    state_invariant (observable c) ->
    Forall LedOps.no_nan os ->
    LedOps.run_all os c = Returned c' sts ->
    Forall state_invariant sts /\ state_invariant (observable c').
Proof.
  induction os as [|o os IH]; intros c c' sts L I Hn; simpl.
  - intros [= <- <-]. split; [constructor | assumption].
  - inversion Hn as [|? ? Ho Hos]; subst.
    unfold bind at 1.
    destruct (LedOps.run o c) as [c1 st|c1 e|c1] eqn:E1; try discriminate.
    destruct (run_preserves_invariant o L I Ho E1) as (Ist & I1 & L1).
    unfold bind at 1.
    destruct (LedOps.run_all os c1) as [c2 sts'|c2 e|c2] eqn:E2;
      try discriminate.
    intros [= <- <-].
    destruct (IH c1 c2 sts' L1 I1 Hos E2) as [Hs I2].
    split; [constructor; assumption | assumption].
Qed.

(** C1 (the defect): a NaN goes through [_clamp] untouched.  From the
    initial state, [set_brightness(nan)] and then [state()] both succeed
    on the mock backend and show a light that is on with a brightness
    that is not a number: it is not above [0] and not within [0, 1]. *)
Theorem nan_brightness_breaks_invariant :
  exists (c : t) (st : LedState),
    LedOps.run_all [LedOps.SetBrightness Float.nan; LedOps.State]
      (LedController.new Sample.mock) = Returned c [st; st]
    /\ is_on st = true
    /\ (Float.zero <? brightness st)%float = false
    /\ (Float.zero <=? brightness st)%float = false
    /\ (brightness st <=? Float.one)%float = false
    /\ ~ state_invariant st.
Proof.
  eexists. exists (mkLedState true Float.nan).
  split; [reflexivity|].
  repeat split. intros (Hon & _). discriminate Hon.
Qed.



(** C7: [set_power(True)] on a backend that accepts the call.  A
    brightness at or below [0] becomes exactly [1.0], a brightness above
    [0] is kept; the backend receives [change_duty_cycle] with that
    brightness times [100]; the light is on. *)
Theorem set_power_on (c : t) (p' : PwmOutput.t) :
  _lock c = false ->
  PwmOutput.send
    (PwmOutput.ChangeDutyCycle
       (power_on_brightness (_brightness c) * Float.hundred)%float)
    (pwm c) = Returned p' tt ->
  let b := power_on_brightness (_brightness c) in
  set_power true c = Returned (mk p' false true b) (mkLedState true b)
  /\ ((_brightness c <=? Float.zero)%float = true -> b = Float.one)
  /\ ((Float.zero <? _brightness c)%float = true -> b = _brightness c)
  /\ PwmOutput.received p'
     = PwmOutput.received (pwm c)
       ++ [PwmOutput.ChangeDutyCycle (b * Float.hundred)%float].
Proof.
  intros L Hsend b.
  rewrite (LedFacts.set_power_on_eq c L). fold b. fold b in Hsend.
  rewrite Hsend. split; [reflexivity|].
  unfold b, power_on_brightness. repeat split.
  - now intros ->.
  - intros Hpos. now rewrite (FloatFacts.ltb_zero_not_leb _ Hpos).
  - exact (BackendFacts.send_returned_received _ _ Hsend).
Qed.

Lemma set_power_on_witness :
  _lock Sample.controller = false
  /\ set_power true Sample.controller
     = Returned
         (mk (PwmOutput.mk
                (PwmOutput.Mock (MockPwmOutput.mk 1000 Float.hundred true false))
                [PwmOutput.ChangeDutyCycle Float.hundred])
            false true Float.one)
         (mkLedState true Float.one).
Proof.
  split; [reflexivity|].
  exact (proj1 (set_power_on Sample.controller eq_refl eq_refl)).
Defined.

(** C8: [set_power(False)] twice in a row, from any state of a
    controller whose backend accepts the first [stop].  Both calls return
    [{is_on: false, brightness: 0}], [state()] shows the same after each,
    and a mock backend records a duty cycle of [0] after each. *)
Theorem set_power_off_idempotent (c : t) (p1 : PwmOutput.t) :
  _lock c = false ->
  PwmOutput.stop (pwm c) = Returned p1 tt ->
  exists (c1 c2 : t),
    set_power false c = Returned c1 OFF
    /\ set_power false c1 = Returned c2 OFF
    /\ state c1 = Returned c1 OFF
    /\ state c2 = Returned c2 OFF
    /\ (forall m, PwmOutput.backend (pwm c) = PwmOutput.Mock m ->
        exists m1 m2,
          PwmOutput.backend (pwm c1) = PwmOutput.Mock m1
          /\ PwmOutput.backend (pwm c2) = PwmOutput.Mock m2
          /\ MockPwmOutput.duty_cycle_percent m1 = Float.zero
          /\ MockPwmOutput.duty_cycle_percent m2 = Float.zero).
Proof.
  intros L H1.
  destruct (BackendFacts.stop_twice _ H1) as (p2 & H2 & B2).
  exists (mk p1 false false Float.zero), (mk p2 false false Float.zero).
  rewrite (LedFacts.set_power_off_eq c L).
  unfold PwmOutput.stop in H1, H2. rewrite H1.
  rewrite LedFacts.set_power_off_eq by reflexivity. simpl. rewrite H2.
  repeat split.
  intros m Hm. rewrite B2.
  destruct (pwm c) as [i log]; simpl in Hm; subst i.
  destruct (MockPwmOutput._lock m) eqn:Lm.
  - exfalso. destruct m as [f d s l]; simpl in Lm; subst l.
    revert H1. unfold PwmOutput.send, PwmOutput.record, PwmOutput.run_impl,
      PwmOutput.run_mock, MockPwmOutput.stop.
    unfold_py; cbn. discriminate.
  - rewrite (BackendFacts.send_mock PwmOutput.Stop m log Lm) in H1.
    injection H1 as <-. simpl.
    eexists; eexists; repeat split.
Qed.

Lemma set_power_off_idempotent_witness :
  _lock Sample.dimmed = false
  /\ exists (c1 c2 : t),
    set_power false Sample.dimmed = Returned c1 OFF
    /\ set_power false c1 = Returned c2 OFF
    /\ state c1 = Returned c1 OFF
    /\ state c2 = Returned c2 OFF
    /\ (forall m, PwmOutput.backend (pwm Sample.dimmed) = PwmOutput.Mock m ->
        exists m1 m2,
          PwmOutput.backend (pwm c1) = PwmOutput.Mock m1
          /\ PwmOutput.backend (pwm c2) = PwmOutput.Mock m2
          /\ MockPwmOutput.duty_cycle_percent m1 = Float.zero
          /\ MockPwmOutput.duty_cycle_percent m2 = Float.zero).
Proof.
  split; [reflexivity|].
  exact (set_power_off_idempotent Sample.dimmed eq_refl eq_refl).
Defined.
End Controller.

(* ================================================================== *)
(** ** The hardware backend *)

Module Hardware.
(** C2 (the defect): [RpiPwmOutput.close] takes the lock of the object
    and, holding it, calls [stop], which waits for the same lock.  From
    every state the call blocks, and the driver has seen no call: neither
    the stop of the signal nor the cleanup of the pin. *)
Theorem RpiPwmOutput_close_blocks (r : RpiPwmOutput.t) :
  RpiPwmOutput.close r = Blocked (RpiPwmOutput.set_lock true r)
  /\ RpiPwmOutput.calls (RpiPwmOutput._gpio (outcome_state (RpiPwmOutput.close r)))
     = RpiPwmOutput.calls (RpiPwmOutput._gpio r).
Proof.
  destruct r as [pn f l g s].
  unfold RpiPwmOutput.close, RpiPwmOutput.stop. unfold_py; cbn.
  destruct l; cbn; split; reflexivity.
Qed.
End Hardware.

(* ================================================================== *)
(** ** The device registry *)

Module HeapFacts.
Lemma heap_set_same (r : ref) (c : LedController.t) (h : Heap) :
  heap_set r c h r = c.
Proof. unfold heap_set. now rewrite Nat.eqb_refl. Qed.

Lemma heap_set_other (r r' : ref) (c : LedController.t) (h : Heap) :
  r' <> r -> heap_set r c h r' = h r'.
Proof.
  intros N. unfold heap_set. destruct (Nat.eqb_spec r' r); [contradiction|easy].
Qed.
End HeapFacts.

Module Registry.
Import HeapFacts.

Lemma close_returned_received (c c' : LedController.t) :
  LedController.close c = Returned c' tt ->
  PwmOutput.received (LedController.pwm c')
  = PwmOutput.received (LedController.pwm c) ++ [PwmOutput.Stop; PwmOutput.Close].
Proof.
  destruct (LedController._lock c) eqn:L.
  - destruct c as [p l o x]; simpl in L; subst l.
    unfold LedController.close. unfold_py; cbn. discriminate.
  - rewrite (LedFacts.close_eq c L).
    destruct (PwmOutput.send PwmOutput.Stop _) as [p1 []|p1 e|p1] eqn:E1;
      try discriminate;
      destruct (PwmOutput.send PwmOutput.Close p1) as [p2 []|p2 e'|p2] eqn:E2;
      try discriminate.
    intros [= <-]. simpl.
    rewrite (BackendFacts.send_returned_received _ _ E2).
    rewrite (BackendFacts.send_returned_received _ _ E1).
    now rewrite <- app_assoc.
Qed.

(** An idle controller on an idle mock always closes. *)
Lemma mock_controller_closes (c : LedController.t) (m : MockPwmOutput.t) :
  LedController._lock c = false ->
  PwmOutput.backend (LedController.pwm c) = PwmOutput.Mock m ->
  MockPwmOutput._lock m = false ->
  exists c', LedController.close c = Returned c' tt.
Proof.
  intros L B Lm. rewrite (LedFacts.close_eq c L).
  destruct (LedController.pwm c) as [i log]; simpl in B; subst i.
  rewrite (BackendFacts.send_mock _ m log Lm).
  rewrite BackendFacts.send_mock by reflexivity.
  eexists; reflexivity.
Qed.

Lemma close_each (ds : list LedDevice.t) :
  forall (h : Heap),
    NoDup (map LedDevice.controller ds) ->
    (forall d, In d ds ->
       exists c', LedController.close (h (LedDevice.controller d)) = Returned c' tt) ->
    exists h',
      for_each ds LedDevice.close h = Returned h' tt
      /\ (forall d, In d ds ->
            PwmOutput.received (LedController.pwm (h' (LedDevice.controller d)))
            = PwmOutput.received (LedController.pwm (h (LedDevice.controller d)))
              ++ [PwmOutput.Stop; PwmOutput.Close])
      /\ (forall r, ~ In r (map LedDevice.controller ds) -> h' r = h r).
Proof.
  induction ds as [|d ds IH]; intros h ND Hc; simpl.
  - exists h. split; [reflexivity|]. split; [intros ? [] | reflexivity].
  - inversion ND as [|? ? Hnotin ND']; subst.
    destruct (Hc d (or_introl eq_refl)) as [c' Ec].
    set (r := LedDevice.controller d) in *.
    set (h1 := heap_set r c' h).
    assert (Hc1 : forall d', In d' ds ->
              exists c'', LedController.close (h1 (LedDevice.controller d'))
                          = Returned c'' tt).
    { intros d' Hin. unfold h1. rewrite heap_set_other.
      - apply Hc. now right.
      - intros Heq. apply Hnotin. rewrite <- Heq. now apply in_map. }
    destruct (IH h1 ND' Hc1) as (h' & Erun & Hlog & Hother).
    exists h'. split; [|split].
    + unfold bind, LedDevice.close, at_ref, zoom. fold r. rewrite Ec.
      exact Erun.
    + intros d' [<-|Hin].
      * fold r. rewrite (Hother r Hnotin). unfold h1. rewrite heap_set_same.
        exact (close_returned_received _ Ec).
      * rewrite (Hlog d' Hin). unfold h1. rewrite heap_set_other; [reflexivity|].
        intros Heq. apply Hnotin. rewrite <- Heq. now apply in_map.
    + intros r' Hr'. rewrite Hother.
      * unfold h1. apply heap_set_other. intros ->. apply Hr'. now left.
      * intros Hin. apply Hr'. now right.
Qed.

(** C5: [DeviceRegistry.close] on a registry whose entries hold distinct
    controllers, each of which closes normally.  The call returns; the
    registry is empty afterwards, so that [list_devices()] returns the
    empty list; the backend of every controller that was registered has
    received exactly [stop] and then [close], once each, on top of what
    it had received before; no other controller is touched.  Both
    conditions are needed: a controller held by two entries is closed
    once for each of them, and a close that does not return stops the
    loop. *)
Theorem registry_close_drains_and_closes
  (reg : DeviceRegistry.t) (h : Heap) :
  DeviceRegistry._lock reg = false ->
  NoDup (map LedDevice.controller (dict_values (DeviceRegistry._led_devices reg))) ->
  (forall d, In d (dict_values (DeviceRegistry._led_devices reg)) ->
     exists c', LedController.close (h (LedDevice.controller d)) = Returned c' tt) ->
  exists (reg' : DeviceRegistry.t) (h' : Heap),
    DeviceRegistry.close (reg, h) = Returned (reg', h') tt
    /\ DeviceRegistry._led_devices reg' = []
    /\ DeviceRegistry.list_devices reg' = Returned reg' []
    /\ (forall d, In d (dict_values (DeviceRegistry._led_devices reg)) ->
          PwmOutput.received (LedController.pwm (h' (LedDevice.controller d)))
          = PwmOutput.received (LedController.pwm (h (LedDevice.controller d)))
            ++ [PwmOutput.Stop; PwmOutput.Close])
    /\ (forall r,
          ~ In r (map LedDevice.controller
                    (dict_values (DeviceRegistry._led_devices reg))) ->
          h' r = h r).
Proof.
  intros L ND Hc.
  destruct (close_each _ h ND Hc) as (h' & Erun & Hlog & Hother).
  destruct reg as [l ds calls]; simpl in *; subst l.
  exists (DeviceRegistry.mk false [] calls), h'.
  split; [|repeat split; assumption].
  unfold DeviceRegistry.close, DeviceRegistry.on_registry,
    DeviceRegistry.on_heap.
  unfold_py; cbn.
  unfold dict_values in Erun. rewrite Erun. reflexivity.
Qed.

Lemma registry_close_drains_and_closes_witness :
  DeviceRegistry._lock Sample.registry = false
  /\ exists (reg' : DeviceRegistry.t) (h' : Heap),
       DeviceRegistry.close (Sample.registry, Sample.heap) = Returned (reg', h') tt
       /\ DeviceRegistry.list_devices reg' = Returned reg' []
       /\ PwmOutput.received (LedController.pwm (h' 0))
          = [PwmOutput.Stop; PwmOutput.Close]
       /\ PwmOutput.received (LedController.pwm (h' 1))
          = [PwmOutput.Stop; PwmOutput.Close].
Proof.
  split; [reflexivity|].
  assert (ND : NoDup (map LedDevice.controller
                        (dict_values (DeviceRegistry._led_devices Sample.registry)))).
  { simpl. repeat constructor; simpl; intuition discriminate. }
  assert (Hc : forall d,
             In d (dict_values (DeviceRegistry._led_devices Sample.registry)) ->
             exists c', LedController.close (Sample.heap (LedDevice.controller d))
                        = Returned c' tt).
  { intros d _. eexists. reflexivity. }
  destruct (registry_close_drains_and_closes Sample.registry Sample.heap
              eq_refl ND Hc) as (reg' & h' & E & _ & El & Hlog & _).
  exists reg', h'. repeat split; try assumption.
  - apply (Hlog Sample.x). simpl. now left.
  - apply (Hlog Sample.y). simpl. right. now left.
Defined.

(** One [stop] and one [close] for every registered controller is not
    what [DeviceRegistry.close] does when two entries hold the same
    controller: the loop closes once for each drained entry.  With the
    devices "a" and "b" on one mock-backed controller, whose backend has
    received nothing yet, the call returns, [list_devices()] is empty,
    and the backend has received [stop], [close], [stop], [close]. *)
Lemma shared_controller_is_closed_twice :
  map LedDevice.controller
    (dict_values (DeviceRegistry._led_devices Sample2.shared_registry)) = [0; 0]
  /\ PwmOutput.received (LedController.pwm (Sample.heap 0)) = []
  /\ exists (reg' : DeviceRegistry.t) (h' : Heap),
       DeviceRegistry.close (Sample2.shared_registry, Sample.heap)
       = Returned (reg', h') tt
       /\ DeviceRegistry.list_devices reg' = Returned reg' []
       /\ PwmOutput.received (LedController.pwm (h' 0))
          = [PwmOutput.Stop; PwmOutput.Close; PwmOutput.Stop; PwmOutput.Close]
       /\ PwmOutput.received (LedController.pwm (h' 0))
          <> [PwmOutput.Stop; PwmOutput.Close].
Proof.
  split; [reflexivity|]. split; [reflexivity|].
  eexists _, _. split; [reflexivity|]. split; [reflexivity|].
  split; [reflexivity | discriminate].
Qed.
End Registry.

(* ================================================================== *)
(** ** The scenario engine *)

Module EngineFacts.
Section WithBuiltins.
Context `{Builtins}.
Import Routes Engine.

Lemma run_action_skipped (a : dict pyval) (executed : list Executed) (app : App) :
  dispatched a = false -> run_action a executed app = Returned app executed.
Proof.
  unfold dispatched, run_action.
  destruct (String.eqb (device_id_of a) ""); [reflexivity|].
  destruct (String.eqb (action_type_of a) "set_power"); [discriminate|].
  destruct (String.eqb (action_type_of a) "set_brightness"); [discriminate|].
  reflexivity.
Qed.

Lemma run_action_dispatched (a : dict pyval) (executed : list Executed) (app : App) :
  dispatched a = true ->
  run_action a executed app
  = (st <- dispatch a ;; ret (executed ++ [record_of a st])) app.
Proof.
  unfold dispatched, run_action, dispatch, record_of.
  destruct (String.eqb (device_id_of a) ""); [discriminate|].
  destruct (String.eqb (action_type_of a) "set_power"); simpl.
  - intros _. unfold bind.
    now destruct (on_devices _ app) as [app1 d|app1 e|app1].
  - destruct (String.eqb (action_type_of a) "set_brightness"); [|discriminate].
    intros _. unfold bind.
    destruct (eval _ app) as [app0 x|app0 e|app0]; try reflexivity.
    now destruct (on_devices _ app0) as [app1 d|app1 e|app1].
Qed.

(** The loop is the dispatch, in order, of the actions it does not skip. *)
Lemma run_actions_eq (actions : list (dict pyval)) :
  forall (executed : list Executed) (app : App),
    run_actions actions executed app
    = (records <- dispatch_all (filter dispatched actions) ;;
       ret (executed ++ records)) app.
Proof.
  induction actions as [|a rest IH]; intros executed app; simpl.
  - unfold bind, ret. now rewrite app_nil_r.
  - destruct (dispatched a) eqn:D.
    + unfold bind at 1. rewrite (run_action_dispatched a executed app D).
      simpl. unfold bind.
      destruct (dispatch a app) as [app1 st|app1 e|app1]; try reflexivity.
      unfold ret at 1. rewrite IH. unfold bind.
      destruct (dispatch_all _ app1) as [app2 recs|app2 e|app2];
        try reflexivity.
      unfold ret. now rewrite <- app_assoc.
    + unfold bind at 1. rewrite (run_action_skipped a executed app D).
      apply IH.
Qed.


Lemma get_led_eq (reg : DeviceRegistry.t) (id : string) :
  DeviceRegistry._lock reg = false ->
  DeviceRegistry.get_led id reg
  = let reg' :=
      DeviceRegistry.mk false (DeviceRegistry._led_devices reg)
        (DeviceRegistry.get_led_calls reg ++ [id]) in
    match dict_get id (DeviceRegistry._led_devices reg) with
    | Some d => Returned reg' d
    | None => Raised reg' (KeyError id)
    end.
Proof.
  destruct reg as [l ds calls]; simpl; intros ->.
  unfold DeviceRegistry.get_led, DeviceRegistry.record_get_led.
  unfold_py; cbn.
  now destruct (dict_get id ds).
Qed.

Lemma scenario_get_eq (reg : ScenarioRegistry.t) (id : string) :
  ScenarioRegistry._lock reg = false ->
  ScenarioRegistry.get id reg
  = match dict_get id (ScenarioRegistry._scenarios reg) with
    | Some sc => Returned reg sc
    | None => Raised reg (KeyError id)
    end.
Proof.
  destruct reg as [l scs]; simpl; intros ->.
  unfold ScenarioRegistry.get. unfold_py; cbn.
  now destruct (dict_get id scs).
Qed.

Lemma trigger_eq (id : string) (app : App) (reg' : ScenarioRegistry.t)
  (sc : Scenario.t) :
  ScenarioRegistry.get id (scenarios app) = Returned reg' sc ->
  trigger_scenario id app
  = (records <- dispatch_all (filter dispatched (Scenario.actions sc)) ;;
     ret (mkTriggerResult (Scenario.scenario_id sc) records))
      (mkApp reg' (registry app) (heap app)).
Proof.
  intros G. unfold trigger_scenario, on_scenarios.
  unfold bind at 1. unfold except_KeyError, zoom. rewrite G.
  unfold bind at 1. rewrite run_actions_eq. unfold bind.
  now destruct (dispatch_all _ _).
Qed.

Lemma dispatch_all_app (l1 l2 : list (dict pyval)) :
  forall (app : App),
    dispatch_all (l1 ++ l2) app
    = (r1 <- dispatch_all l1 ;; r2 <- dispatch_all l2 ;; ret (r1 ++ r2)) app.
Proof.
  induction l1 as [|a l1 IH]; intros app; simpl.
  - unfold bind, ret. simpl. now destruct (dispatch_all l2 app).
  - unfold bind. destruct (dispatch a app) as [app1 st|app1 e|app1];
      try reflexivity.
    rewrite IH. unfold bind.
    destruct (dispatch_all l1 app1) as [app2 r1|app2 e|app2]; try reflexivity.
    unfold ret. simpl. now destruct (dispatch_all l2 app2).
Qed.

(** Dispatching changes controllers, never the membership of the
    registry. *)
Lemma dispatch_keeps_registry (a : dict pyval) (app app' : App) (st : LedState) :
  DeviceRegistry._lock (registry app) = false ->
  dispatch a app = Returned app' st ->
  DeviceRegistry._lock (registry app') = false
  /\ DeviceRegistry._led_devices (registry app')
     = DeviceRegistry._led_devices (registry app).
Proof.
  intros L. unfold dispatch.
  destruct (String.eqb (action_type_of a) "set_power").
  - unfold bind, on_devices, on_heap, zoom. rewrite (get_led_eq _ _ L). simpl.
    destruct (dict_get _ _) as [d|]; [|discriminate]. simpl.
    destruct (LedDevice.set_power d _ (heap app)); try discriminate.
    intros [= <- <-]. now split.
  - unfold bind at 1.
    destruct (py_float _) as [x|e]; simpl; [|discriminate].
    unfold ret, bind, on_devices, on_heap, zoom. rewrite (get_led_eq _ _ L).
    simpl.
    destruct (dict_get _ _) as [d|]; [|discriminate]. simpl.
    destruct (LedDevice.set_brightness d x (heap app)); try discriminate.
    intros [= <- <-]. now split.
Qed.

Lemma dispatch_all_keeps_registry (actions : list (dict pyval)) :
  forall (app app' : App) (records : list Executed),
    DeviceRegistry._lock (registry app) = false ->
    dispatch_all actions app = Returned app' records ->
    DeviceRegistry._lock (registry app') = false
    /\ DeviceRegistry._led_devices (registry app')
       = DeviceRegistry._led_devices (registry app).
Proof.
  induction actions as [|a rest IH]; intros app app' records L; simpl.
  - intros [= <- <-]. now split.
  - unfold bind at 1.
    destruct (dispatch a app) as [app1 st|app1 e|app1] eqn:E1; try discriminate.
    destruct (dispatch_keeps_registry a app L E1) as [L1 D1].
    unfold bind at 1.
    destruct (dispatch_all rest app1) as [app2 recs|app2 e|app2] eqn:E2;
      try discriminate.
    intros [= <- <-]. destruct (IH _ _ _ L1 E2) as [L2 D2].
    split; [assumption | congruence].
Qed.

(** A dispatched action whose device is not registered raises the
    KeyError of the lookup and leaves the controllers alone. *)
Lemma dispatch_absent (a : dict pyval) (app : App) :
  reaches_lookup a ->
  DeviceRegistry._lock (registry app) = false ->
  dict_get (device_id_of a) (DeviceRegistry._led_devices (registry app)) = None ->
  exists app',
    dispatch a app = Raised app' (KeyError (device_id_of a))
    /\ heap app' = heap app
    /\ scenarios app' = scenarios app
    /\ DeviceRegistry._led_devices (registry app')
       = DeviceRegistry._led_devices (registry app).
Proof.
  intros [D F] L A. unfold dispatch.
  unfold dispatched in D. apply andb_prop in D as [_ K].
  destruct (String.eqb (action_type_of a) "set_power") eqn:P.
  - unfold bind, on_devices, zoom. rewrite (get_led_eq _ _ L). simpl.
    rewrite A. eexists. split; [reflexivity|]. now repeat split.
  - simpl in K. apply String.eqb_eq in K. destruct (F K) as [x ->].
    unfold eval, ret, bind, on_devices, zoom. rewrite (get_led_eq _ _ L). simpl.
    rewrite A. eexists. split; [reflexivity|]. now repeat split.
Qed.
End WithBuiltins.
End EngineFacts.

Module Scenarios.
Section WithBuiltins.
Context `{Builtins}.
Import Routes Engine EngineFacts.



(** C4: the two failures of a trigger.  An identifier that names no
    stored scenario raises the 404 "Not found" with the application
    untouched: no action ran.  In a stored scenario, a dispatched action
    that gets as far as the lookup (a [set_power], or a [set_brightness]
    whose brightness [float] accepts) and whose device is not registered
    raises the KeyError of the lookup out of the trigger: the actions
    after it do not run, whatever they are, and the controllers stay as
    the actions before it left them.  A [set_brightness] whose
    brightness [float] refuses is left out: it raises the error of the
    conversion, before any lookup. *)
Theorem trigger_not_found_and_abort :
  (forall (id : string) (app : App),
      ScenarioRegistry._lock (scenarios app) = false ->
      dict_get id (ScenarioRegistry._scenarios (scenarios app)) = None ->
      trigger_scenario id app
      = Raised app (HTTPException HTTP_404_NOT_FOUND "Not found"))
  /\ (forall (id : string) (app : App) (reg' : ScenarioRegistry.t)
             (sc : Scenario.t) (before : list (dict pyval)) (a : dict pyval)
             (after : list (dict pyval)) (app1 : App)
             (records : list Executed),
         ScenarioRegistry.get id (scenarios app) = Returned reg' sc ->
         Scenario.actions sc = before ++ a :: after ->
         DeviceRegistry._lock (registry app) = false ->
         dispatch_all (filter dispatched before)
           (mkApp reg' (registry app) (heap app)) = Returned app1 records ->
         reaches_lookup a ->
         dict_get (device_id_of a) (DeviceRegistry._led_devices (registry app))
         = None ->
         exists app2,
           trigger_scenario id app = Raised app2 (KeyError (device_id_of a))
           /\ heap app2 = heap app1).
Proof.
  split.
  - intros id app L G. unfold trigger_scenario, on_scenarios.
    unfold bind at 1. unfold except_KeyError, zoom.
    rewrite (scenario_get_eq _ _ L), G. now destruct app.
  - intros id app reg' sc before a after app1 records G S L B R A.
    rewrite (trigger_eq id app G), S.
    rewrite filter_app. simpl. destruct R as [D F]. rewrite D.
    unfold bind at 1. rewrite dispatch_all_app. unfold bind at 1.
    rewrite B.
    destruct (@dispatch_all_keeps_registry _ _ (mkApp reg' (registry app) (heap app))
                _ _ L B) as [L1 D1].
    simpl in D1. rewrite <- D1 in A.
    destruct (@dispatch_absent _ a app1 (conj D F) L1 A) as (app2 & E & Hh & _).
    exists app2. split; [|exact Hh].
    simpl. unfold bind. now rewrite E.
Qed.

(** C9: an action that names a registered device and leaves its value
    out.  A [set_brightness] without [brightness] is dispatched as
    [set_brightness(0.0)], a [set_power] without [is_on] as
    [set_power(False)]; in both cases, on a backend that accepts
    [stop], the step returns with one more record, whose state is
    [{is_on: false, brightness: 0}], the backend has received [stop] and
    the controller is off. *)
Theorem missing_value_defaults_to_off
  (a : dict pyval) (executed : list Executed) (app : App) (d : LedDevice.t)
  (p' : PwmOutput.t) :
  device_id_of a <> ""%string ->
  (action_type_of a = "set_brightness"%string /\ dict_get "brightness" a = None)
  \/ (action_type_of a = "set_power"%string /\ dict_get "is_on" a = None) ->
  DeviceRegistry._lock (registry app) = false ->
  dict_get (device_id_of a) (DeviceRegistry._led_devices (registry app)) = Some d ->
  LedController._lock (heap app (LedDevice.controller d)) = false ->
  PwmOutput.stop (LedController.pwm (heap app (LedDevice.controller d)))
  = Returned p' tt ->
  run_action a executed app
  = (device <- on_devices (DeviceRegistry.get_led (device_id_of a)) ;;
     state <- on_heap
       (if String.eqb (action_type_of a) "set_power"
        then LedDevice.set_power device false
        else LedDevice.set_brightness device Float.zero) ;;
     ret (executed ++ [mkExecuted (action_type_of a) (device_id_of a) state]))
      app
  /\ exists app',
       run_action a executed app
       = Returned app'
           (executed ++ [mkExecuted (action_type_of a) (device_id_of a) OFF])
       /\ observable (heap app' (LedDevice.controller d)) = OFF
       /\ LedController.pwm (heap app' (LedDevice.controller d)) = p'
       /\ PwmOutput.received p'
          = PwmOutput.received
              (LedController.pwm (heap app (LedDevice.controller d)))
            ++ [PwmOutput.Stop].
Proof.
  intros N K L G Lc S.
  pose proof (BackendFacts.send_returned_received _ _ S) as Hlog.
  unfold PwmOutput.stop in S.
  apply String.eqb_neq in N.
  unfold run_action. rewrite N.
  destruct K as [[T M]|[T M]]; rewrite T; simpl;
    unfold dict_get_default; rewrite M; simpl.
  - split; [reflexivity|].
    unfold eval, ret, bind, on_devices, on_heap, zoom.
    rewrite (get_led_eq _ _ L), G. simpl.
    unfold LedDevice.set_brightness, at_ref, zoom.
    rewrite (LedFacts.set_brightness_eq _ _ Lc).
    change (_clamp Float.zero Float.zero Float.one) with Float.zero.
    change (Float.zero =? Float.zero)%float with true. cbv iota.
    rewrite S. eexists. split; [reflexivity|]. simpl.
    rewrite HeapFacts.heap_set_same. now repeat split.
  - split; [reflexivity|].
    unfold ret, bind, on_devices, on_heap, zoom.
    rewrite (get_led_eq _ _ L), G. simpl.
    unfold LedDevice.set_power, at_ref, zoom.
    rewrite (LedFacts.set_power_off_eq _ Lc).
    rewrite S. eexists. split; [reflexivity|]. simpl.
    rewrite HeapFacts.heap_set_same. now repeat split.
Qed.
End WithBuiltins.



Lemma trigger_not_found_and_abort_witness :
  @Routes.trigger_scenario Sample.builtins "missing_scenario" Sample.app
  = Raised Sample.app (HTTPException 404 "Not found")
  /\ exists app2,
       @Routes.trigger_scenario Sample.builtins "broken" Sample.app
       = Raised app2 (KeyError "ghost")
       /\ observable (Routes.heap app2 0) = mkLedState true Float.one
       /\ observable (Routes.heap app2 1) = OFF.
Proof.
  split.
  - exact (proj1 (@trigger_not_found_and_abort Sample.builtins)
             "missing_scenario"%string Sample.app eq_refl eq_refl).
  - assert (R : @Engine.reaches_lookup Sample.builtins
                  [("type"%string, PyStr "set_brightness");
                   ("device_id"%string, PyStr "ghost");
                   ("brightness"%string, PyFloat Sample.half)]).
    { split; [reflexivity|]. intros _. eexists. reflexivity. }
    destruct (proj2 (@trigger_not_found_and_abort Sample.builtins)
                "broken"%string Sample.app Sample.scenarios _
                [ [("type"%string, PyStr "set_power");
                   ("device_id"%string, PyStr "x");
                   ("is_on"%string, PyBool true)] ]
                _ _ _ _ eq_refl eq_refl eq_refl eq_refl R eq_refl)
      as (app2 & E & Hh).
    exists app2. split; [exact E|]. rewrite Hh. split; reflexivity.
Defined.

(** The lookup failure is not what every dispatched action on an absent
    device raises.  The stored action
    [{type: set_brightness, device_id: ghost, brightness: null}] is
    dispatched and "ghost" is not registered, yet the trigger raises the
    TypeError of [float(None)]: the conversion comes before
    [get_led], which is asked for "x" only, so no KeyError propagates.
    The action before it has run, the one after it has not. *)
Lemma conversion_error_comes_before_lookup :
  @Engine.dispatched Sample.builtins Sample2.null_brightness_ghost = true
  /\ Routes.device_id_of (H := Sample.builtins) Sample2.null_brightness_ghost
     = "ghost"%string
  /\ dict_get "ghost"
       (DeviceRegistry._led_devices (Routes.registry Sample2.null_app)) = None
  /\ (exists app2,
        @Routes.trigger_scenario Sample.builtins "null" Sample2.null_app
        = Raised app2 TypeError
        /\ DeviceRegistry.get_led_calls (Routes.registry app2) = ["x"%string]
        /\ observable (Routes.heap app2 0) = mkLedState true Float.one
        /\ observable (Routes.heap app2 1) = OFF)
  /\ ~ (exists app2,
          @Routes.trigger_scenario Sample.builtins "null" Sample2.null_app
          = Raised app2 (KeyError "ghost")).
Proof.
  split; [reflexivity|]. split; [reflexivity|]. split; [reflexivity|]. split.
  - eexists. repeat split; reflexivity.
  - intros [app2 E].
    assert (T : exists app3,
               @Routes.trigger_scenario Sample.builtins "null" Sample2.null_app
               = Raised app3 TypeError)
      by (eexists; reflexivity).
    destruct T as [app3 T]. rewrite T in E. discriminate E.
Qed.

Lemma missing_value_defaults_to_off_witness :
  exists app',
    Routes.run_action (H := Sample.builtins)
      [("type"%string, PyStr "set_brightness"); ("device_id"%string, PyStr "x")]
      [] Sample.app
    = Returned app' [Routes.mkExecuted "set_brightness" "x" OFF]
    /\ observable (Routes.heap app' 0) = OFF.
Proof.
  destruct (@missing_value_defaults_to_off Sample.builtins
              [("type"%string, PyStr "set_brightness");
               ("device_id"%string, PyStr "x")]
              [] Sample.app Sample.x _
              ltac:(discriminate) (or_introl (conj eq_refl eq_refl))
              eq_refl eq_refl eq_refl eq_refl)
    as (_ & app' & E & O & _).
  exists app'. split; [exact E | exact O].
Defined.

(** The same NaN arrives through a trigger: a stored action may carry
    its brightness as the string "nan", which [float] accepts. *)
Lemma nan_reaches_controller_through_trigger :
  exists app',
    @Routes.trigger_scenario Sample.builtins "nan" Sample.app
    = Returned app'
        (Routes.mkTriggerResult "nan"
           [Routes.mkExecuted "set_brightness" "x"
              (mkLedState true Float.nan)])
    /\ observable (Routes.heap app' 0) = mkLedState true Float.nan.
Proof.
  eexists. split; reflexivity.
Qed.
End Scenarios.


(* ================================================================== *)
(** ** Dictionaries and registries *)

Module DictFacts.
Lemma get_set_same {V} (k : string) (v : V) (d : dict V) :
  dict_get k (dict_set k v d) = Some v.
Proof.
  induction d as [|[k' v'] d IH]; simpl.
  - now rewrite String.eqb_refl.
  - destruct (String.eqb k' k) eqn:E; simpl.
    + now rewrite String.eqb_refl.
    + now rewrite E.
Qed.

Lemma get_set_other {V} (k k' : string) (v : V) (d : dict V) :
  k' <> k -> dict_get k' (dict_set k v d) = dict_get k' d.
Proof.
  intros N. induction d as [|[k0 v0] d IH]; simpl.
  - apply String.eqb_neq in N. rewrite String.eqb_sym. now rewrite N.
  - destruct (String.eqb k0 k) eqn:E; simpl.
    + apply String.eqb_eq in E. subst k0.
      apply String.eqb_neq in N. rewrite String.eqb_sym. now rewrite N.
    + now rewrite IH.
Qed.

Lemma set_set {V} (k : string) (a b : V) (d : dict V) :
  dict_set k b (dict_set k a d) = dict_set k b d.
Proof.
  induction d as [|[k' v'] d IH]; simpl.
  - now rewrite String.eqb_refl.
  - destruct (String.eqb k' k) eqn:E; simpl.
    + now rewrite String.eqb_refl.
    + now rewrite E, IH.
Qed.

Lemma in_keys_set {V} (k k' : string) (v : V) (d : dict V) :
  In k' (dict_keys (dict_set k v d)) <-> k' = k \/ In k' (dict_keys d).
Proof.
  induction d as [|[k0 v0] d IH]; simpl.
  - intuition.
  - destruct (String.eqb k0 k) eqn:E; simpl.
    + apply String.eqb_eq in E. subst k0. intuition.
    + rewrite IH. intuition.
Qed.

Lemma keys_set_nodup {V} (k : string) (v : V) (d : dict V) :
  NoDup (dict_keys d) -> NoDup (dict_keys (dict_set k v d)).
Proof.
  induction d as [|[k0 v0] d IH]; simpl; intros ND.
  - constructor; [intros [] | constructor].
  - inversion ND as [|? ? Hnot ND']; subst.
    destruct (String.eqb k0 k) eqn:E; simpl.
    + apply String.eqb_eq in E. subst k0. now constructor.
    + constructor; [|now apply IH].
      rewrite in_keys_set. intros [->|Hin]; [|contradiction].
      now rewrite String.eqb_refl in E.
Qed.

Lemma get_some_in {V} (k : string) (v : V) (d : dict V) :
  dict_get k d = Some v -> In (k, v) d.
Proof.
  induction d as [|[k0 v0] d IH]; simpl; [discriminate|].
  destruct (String.eqb k0 k) eqn:E.
  - apply String.eqb_eq in E. intros [= ->]. subst. now left.
  - intros G. right. now apply IH.
Qed.

Lemma in_get_some {V} (k : string) (v : V) (d : dict V) :
  NoDup (dict_keys d) -> In (k, v) d -> dict_get k d = Some v.
Proof.
  induction d as [|[k0 v0] d IH]; simpl; intros ND; [intros []|].
  inversion ND as [|? ? Hnot ND']; subst.
  intros [[= -> ->]|Hin].
  - now rewrite String.eqb_refl.
  - destruct (String.eqb k0 k) eqn:E; [|now apply IH].
    apply String.eqb_eq in E. subst k0. exfalso. apply Hnot.
    change k with (fst (k, v)). now apply in_map.
Qed.
End DictFacts.

Module RegistryFacts.
Import DeviceRegistry.

Lemma find_append {A} (f : A -> bool) (l1 l2 : list A) :
  find f (l1 ++ l2)
  = match find f l1 with
    | Some x => Some x
    | None => find f l2
    end.
Proof.
  induction l1 as [|a l1 IH]; simpl; [reflexivity|].
  now destruct (f a).
Qed.

Lemma register_led_eq (d : LedDevice.t) (reg : t) :
  _lock reg = false ->
  register_led d reg
  = Returned
      (mk false (dict_set (LedDevice.device_id d) d (_led_devices reg))
         (get_led_calls reg)) tt.
Proof.
  destruct reg as [l ds calls]; simpl; intros ->.
  unfold register_led. unfold_py; cbn. reflexivity.
Qed.

Lemma list_devices_eq (reg : t) :
  _lock reg = false ->
  list_devices reg
  = Returned reg (map LedDevice.info (dict_values (_led_devices reg))).
Proof.
  destruct reg as [l ds calls]; simpl; intros ->.
  unfold list_devices. unfold_py; cbn. reflexivity.
Qed.

Lemma get_led_idle (reg : t) (id : string) :
  _lock reg = false ->
  get_led id reg
  = match dict_get id (_led_devices reg) with
    | Some d =>
        Returned (mk false (_led_devices reg) (get_led_calls reg ++ [id])) d
    | None =>
        Raised (mk false (_led_devices reg) (get_led_calls reg ++ [id]))
          (KeyError id)
    end.
Proof.
  destruct reg as [l ds calls]; simpl; intros ->.
  unfold get_led, record_get_led. unfold_py; cbn.
  now destruct (dict_get id ds).
Qed.

Lemma keyed_set (d : LedDevice.t) (ds : dict LedDevice.t) :
  keyed_by_id ds -> keyed_by_id (dict_set (LedDevice.device_id d) d ds).
Proof.
  intros [ND F]. split; [now apply DictFacts.keys_set_nodup|].
  clear ND. induction ds as [|[k v] ds IH]; simpl.
  - constructor; [reflexivity | constructor].
  - inversion F as [|? ? Hk F']; subst.
    destruct (String.eqb k (LedDevice.device_id d)); constructor; auto.
Qed.

(** Registering devices one after the other, on any idle registry. *)
Lemma register_all (ds : list LedDevice.t) :
  forall (reg : t),
    _lock reg = false ->
    exists devices,
      for_each ds register_led reg
      = Returned (mk false devices (get_led_calls reg)) tt
      /\ (keyed_by_id (_led_devices reg) -> keyed_by_id devices)
      /\ (forall id,
            dict_get id devices
            = match last_with_id id ds with
              | Some d => Some d
              | None => dict_get id (_led_devices reg)
              end).
Proof.
  induction ds as [|d ds IH]; intros reg L; simpl.
  - exists (_led_devices reg). destruct reg as [l devs calls]; simpl in *.
    subst l. split; [reflexivity|]. split; [auto|]. intros id. reflexivity.
  - unfold bind. rewrite (register_led_eq d reg L).
    destruct (IH (mk false (dict_set (LedDevice.device_id d) d (_led_devices reg))
                    (get_led_calls reg)) eq_refl)
      as (devices & E & K & G).
    exists devices. simpl in *. split; [exact E|]. split.
    + intros K0. apply K. now apply keyed_set.
    + intros id. rewrite G.
      change (d :: ds) with ([d] ++ ds).
      unfold last_with_id. rewrite rev_app_distr. simpl.
      rewrite find_append.
      destruct (find _ (rev ds)) as [d'|]; [reflexivity|].
      simpl. destruct (String.eqb (LedDevice.device_id d) id) eqn:E1.
      * apply String.eqb_eq in E1. subst id. apply DictFacts.get_set_same.
      * apply DictFacts.get_set_other. intros ->.
        now rewrite String.eqb_refl in E1.
Qed.
End RegistryFacts.


Module RegistryMore.
Import DeviceRegistry RegistryFacts.

(** X1: registering any devices one after the other on a new registry
    always returns, and leaves one entry for each identifier, the last
    device registered under it, stored under its own identifier.
    [list_devices] then shows identifiers that are all different, each
    with the type "led", and [get_led] on a listed identifier gives back
    a device that bears it. *)
Theorem registrations_keep_one_entry_per_id (ds : list LedDevice.t) :
  exists (reg : t) (infos : list DeviceInfo.t),
    for_each ds register_led DeviceRegistry.new = Returned reg tt
    /\ keyed_by_id (_led_devices reg)
    /\ (forall id, dict_get id (_led_devices reg) = last_with_id id ds)
    /\ list_devices reg = Returned reg infos
    /\ NoDup (map DeviceInfo.device_id infos)
    /\ Forall (fun i => DeviceInfo.device_type i = "led"%string) infos
    /\ (forall i, In i infos ->
          exists reg' d,
            get_led (DeviceInfo.device_id i) reg = Returned reg' d
            /\ LedDevice.device_id d = DeviceInfo.device_id i).
Proof.
  destruct (register_all ds DeviceRegistry.new eq_refl) as (devices & E & K & G).
  assert (K0 : keyed_by_id devices).
  { apply K. split; constructor. }
  exists (mk false devices []), (map LedDevice.info (dict_values devices)).
  split; [exact E|]. simpl. split; [exact K0|]. split.
  { intros id. rewrite G. now destruct (last_with_id id ds). }
  split; [now rewrite list_devices_eq|].
  destruct K0 as [ND F].
  assert (Hids : map DeviceInfo.device_id (map LedDevice.info (dict_values devices))
                 = dict_keys devices).
  { unfold dict_values, dict_keys. rewrite !map_map. apply map_ext_in.
    intros kv Hin. simpl. rewrite Forall_forall in F. symmetry. now apply F. }
  split; [now rewrite Hids|]. split.
  - apply Forall_forall. intros i Hi. apply in_map_iff in Hi as (d & <- & _).
    reflexivity.
  - intros i Hi. apply in_map_iff in Hi as (d & <- & Hd).
    unfold dict_values in Hd. apply in_map_iff in Hd as ([k d'] & Hsnd & Hin).
    simpl in Hsnd. subst d'.
    rewrite Forall_forall in F. pose proof (F _ Hin) as Hk. simpl in Hk.
    subst k. rewrite get_led_idle by reflexivity. simpl.
    rewrite (DictFacts.in_get_some _ d devices ND Hin).
    eexists; eexists; split; reflexivity.
Qed.

(** X2: [register_led] on an idle registry, then [get_led].  The device
    registered is the one found under its identifier, whatever was there
    before; every other identifier finds what it found before; the
    identifiers listed are the former ones, with the new one at the end
    when it was not there. *)
Theorem register_then_get (reg : t) (d : LedDevice.t) :
  _lock reg = false ->
  exists (reg1 reg2 : t),
    register_led d reg = Returned reg1 tt
    /\ get_led (LedDevice.device_id d) reg1 = Returned reg2 d
    /\ (forall id, id <> LedDevice.device_id d ->
          dict_get id (_led_devices reg1) = dict_get id (_led_devices reg))
    /\ dict_keys (_led_devices reg1)
       = match dict_get (LedDevice.device_id d) (_led_devices reg) with
         | Some _ => dict_keys (_led_devices reg)
         | None => dict_keys (_led_devices reg) ++ [LedDevice.device_id d]
         end.
Proof.
  intros L. eexists. eexists. rewrite (register_led_eq d reg L).
  split; [reflexivity|]. rewrite get_led_idle by reflexivity. simpl.
  rewrite DictFacts.get_set_same. split; [reflexivity|]. split.
  - intros id N. now apply DictFacts.get_set_other.
  - generalize (LedDevice.device_id d) as k. intros k.
    induction (_led_devices reg) as [|[k0 v0] ds IH]; simpl; [reflexivity|].
    destruct (String.eqb k0 k) eqn:E; simpl.
    + apply String.eqb_eq in E. now subst k0.
    + rewrite IH. now destruct (dict_get k ds).
Qed.

Lemma register_then_get_witness :
  _lock Sample.registry = false
  /\ exists (reg1 reg2 : t),
       register_led (LedDevice.mk "x" 7) Sample.registry = Returned reg1 tt
       /\ get_led "x" reg1 = Returned reg2 (LedDevice.mk "x" 7)
       /\ dict_keys (_led_devices reg1) = ["x"%string; "y"%string].
Proof.
  split; [reflexivity|].
  destruct (register_then_get Sample.registry (LedDevice.mk "x" 7) eq_refl)
    as (reg1 & reg2 & E1 & E2 & _ & K).
  exists reg1, reg2. repeat split; assumption.
Defined.

(** X3: once [close] has returned, the registry is empty for good:
    [get_led] raises the KeyError of its identifier, whatever it is, and
    a second [close] returns at once without touching a controller. *)
Theorem closed_registry_stays_empty
  (reg reg' : t) (h h' : Heap) :
  DeviceRegistry.close (reg, h) = Returned (reg', h') tt ->
  _led_devices reg' = []
  /\ (forall id, exists reg'',
        get_led id reg' = Raised reg'' (KeyError id)
        /\ _led_devices reg'' = [])
  /\ DeviceRegistry.close (reg', h') = Returned (reg', h') tt.
Proof.
  destruct reg as [l ds calls].
  unfold DeviceRegistry.close, on_registry, DeviceRegistry.on_heap.
  unfold_py; cbn.
  destruct l; cbn; [discriminate|].
  destruct (for_each (map snd ds) LedDevice.close h) as [h1 []|h1 e|h1];
    try discriminate.
  intros [= <- <-]. cbn. split; [reflexivity|]. split; [|reflexivity].
  intros id. eexists. split; reflexivity.
Qed.

Lemma closed_registry_stays_empty_witness :
  exists (reg' : t) (h' : Heap),
    DeviceRegistry.close (Sample.registry, Sample.heap) = Returned (reg', h') tt
    /\ DeviceRegistry.close (reg', h') = Returned (reg', h') tt.
Proof.
  eexists. eexists. split; [reflexivity|].
  refine (proj2 (proj2 (closed_registry_stays_empty Sample.registry Sample.heap _))).
  reflexivity.
Defined.
End RegistryMore.


(* ================================================================== *)
(** ** More on the backends *)

Module HardwareFacts.
Import RpiPwmOutput.

Lemma close_blocked (r : t) : close r = Blocked (set_lock true r).
Proof.
  destruct r as [pn f l g s].
  unfold close, stop. unfold_py; cbn. now destruct l.
Qed.

(** What [stop] leaves of the object, whatever its outcome: the driver
    has seen at most one more call, a [PWM.stop]. *)
Lemma stop_state (r : t) :
  exists l s calls',
    outcome_state (stop r)
    = mk (pin r) (frequency_hz r) l (mkGpio calls' (raises (_gpio r))) s
    /\ (calls' = calls (_gpio r) \/ calls' = calls (_gpio r) ++ [PWM_stop]).
Proof.
  destruct r as [pn f l [cs rs] s].
  unfold stop, gpio, driver. unfold_py; cbn.
  destruct l; cbn.
  - eexists _, _, _. split; [reflexivity|]. now left.
  - destruct s; cbn.
    + destruct (rs cs PWM_stop); cbn;
        eexists _, _, _; (split; [reflexivity|]); now right.
    + eexists _, _, _. split; [reflexivity|]. now left.
Qed.

Lemma stop_not_blocked (r : t) :
  _lock r = false -> forall r', stop r <> Blocked r'.
Proof.
  destruct r as [pn f l [cs rs] s]; simpl; intros -> r'.
  unfold stop, gpio, driver. unfold_py; cbn.
  destruct s; cbn; [destruct (rs cs PWM_stop)|]; discriminate.
Qed.



End HardwareFacts.

Module HardwareMore.
Import RpiPwmOutput HardwareFacts.


End HardwareMore.


Module ShutdownFacts.
Import HardwareFacts.

Lemma send_stop_rpi (r : RpiPwmOutput.t) (log : list PwmOutput.call) :
  exists r',
    outcome_state (PwmOutput.send PwmOutput.Stop (PwmOutput.mk (PwmOutput.Rpi r) log))
    = PwmOutput.mk (PwmOutput.Rpi r') (log ++ [PwmOutput.Stop])
    /\ (forall p, In (RpiPwmOutput.cleanup p) (RpiPwmOutput.calls (RpiPwmOutput._gpio r')) ->
                  In (RpiPwmOutput.cleanup p) (RpiPwmOutput.calls (RpiPwmOutput._gpio r))).
Proof.
  destruct (stop_state r) as (l & s & calls' & E & Hc).
  exists (outcome_state (RpiPwmOutput.stop r)). split.
  - unfold PwmOutput.send, PwmOutput.record, PwmOutput.run_impl, PwmOutput.run_rpi.
    unfold_py; cbn. now destruct (RpiPwmOutput.stop r).
  - rewrite E. simpl. intros p Hin. destruct Hc as [->| ->]; [exact Hin|].
    apply in_app_or in Hin as [Hin|[Hin|[]]]; [exact Hin | discriminate].
Qed.

Lemma send_close_rpi (r : RpiPwmOutput.t) (log : list PwmOutput.call) :
  PwmOutput.send PwmOutput.Close (PwmOutput.mk (PwmOutput.Rpi r) log)
  = Blocked (PwmOutput.mk (PwmOutput.Rpi (RpiPwmOutput.set_lock true r))
               (log ++ [PwmOutput.Close])).
Proof.
  unfold PwmOutput.send, PwmOutput.record, PwmOutput.run_impl, PwmOutput.run_rpi.
  unfold_py; cbn. now rewrite close_blocked.
Qed.

(** A controller on the hardware backend never comes back from
    [close], and its pin is not released. *)
Lemma controller_close_blocks (c : LedController.t) (r : RpiPwmOutput.t) :
  PwmOutput.backend (LedController.pwm c) = PwmOutput.Rpi r ->
  exists c' r',
    LedController.close c = Blocked c'
    /\ PwmOutput.backend (LedController.pwm c') = PwmOutput.Rpi r'
    /\ (forall p, In (RpiPwmOutput.cleanup p) (RpiPwmOutput.calls (RpiPwmOutput._gpio r')) ->
                  In (RpiPwmOutput.cleanup p) (RpiPwmOutput.calls (RpiPwmOutput._gpio r))).
Proof.
  intros B. destruct (LedController._lock c) eqn:L.
  - destruct c as [p l o x]; simpl in *; subst l.
    unfold LedController.close. unfold_py; cbn.
    eexists _, r. split; [reflexivity|]. simpl. split; [exact B | auto].
  - rewrite (LedFacts.close_eq c L).
    destruct (LedController.pwm c) as [i log]; simpl in B; subst i.
    destruct (send_stop_rpi r log) as (r1 & E1 & H1).
    destruct (PwmOutput.send PwmOutput.Stop _) as [p1 []|p1 e|p1];
      simpl in E1; subst p1; try rewrite send_close_rpi;
      eexists _, _; (split; [reflexivity|]); simpl; (split; [reflexivity|]);
      exact H1.
Qed.
End ShutdownFacts.

Module Shutdown.
(** X5: the shutdown of a registry whose first device is on the hardware
    backend.  [DeviceRegistry.close] empties the registry and then never
    returns: the first controller blocks in its own [close], the pin of
    its backend is not released, and the controllers of the devices
    after it are left as they were, not closed. *)
Theorem registry_close_hangs_on_hardware
  (reg : DeviceRegistry.t) (h : Heap) (d : LedDevice.t)
  (rest : list LedDevice.t) (r : RpiPwmOutput.t) :
  DeviceRegistry._lock reg = false ->
  dict_values (DeviceRegistry._led_devices reg) = d :: rest ->
  PwmOutput.backend (LedController.pwm (h (LedDevice.controller d)))
  = PwmOutput.Rpi r ->
  exists (reg' : DeviceRegistry.t) (h' : Heap) (r' : RpiPwmOutput.t),
    DeviceRegistry.close (reg, h) = Blocked (reg', h')
    /\ DeviceRegistry._led_devices reg' = []
    /\ PwmOutput.backend (LedController.pwm (h' (LedDevice.controller d)))
       = PwmOutput.Rpi r'
    /\ (forall p,
          In (RpiPwmOutput.cleanup p) (RpiPwmOutput.calls (RpiPwmOutput._gpio r')) ->
          In (RpiPwmOutput.cleanup p) (RpiPwmOutput.calls (RpiPwmOutput._gpio r)))
    /\ (forall r0, r0 <> LedDevice.controller d -> h' r0 = h r0).
Proof.
  intros L V B.
  destruct (ShutdownFacts.controller_close_blocks _ B) as (c' & r' & E & B' & H').
  destruct reg as [l ds calls]; simpl in *; subst l.
  exists (DeviceRegistry.mk false [] calls),
    (heap_set (LedDevice.controller d) c' h), r'.
  split; [|split; [reflexivity|]; split; [|split; [exact H'|]]].
  - unfold DeviceRegistry.close, DeviceRegistry.on_registry,
      DeviceRegistry.on_heap.
    unfold_py; cbn. unfold dict_values in V. rewrite V. simpl.
    unfold bind, LedDevice.close, at_ref, zoom. rewrite E. reflexivity.
  - rewrite HeapFacts.heap_set_same. exact B'.
  - intros r0 N. now apply HeapFacts.heap_set_other.
Qed.

Lemma registry_close_hangs_on_hardware_witness :
  DeviceRegistry._lock Sample.registry = false
  /\ exists (reg' : DeviceRegistry.t) (h' : Heap),
       DeviceRegistry.close (Sample.registry, Sample2.hardware_heap)
       = Blocked (reg', h')
       /\ DeviceRegistry._led_devices reg' = []
       /\ h' 1 = Sample.controller.
Proof.
  split; [reflexivity|].
  destruct (registry_close_hangs_on_hardware Sample.registry
              Sample2.hardware_heap (d := Sample.x) (rest := [Sample.y])
              (r := Sample.rpi) eq_refl eq_refl eq_refl)
    as (reg' & h' & r' & E & D & _ & _ & F).
  exists reg', h'. split; [exact E|]. split; [exact D|].
  rewrite (F 1); [reflexivity | discriminate].
Defined.
End Shutdown.


(* ================================================================== *)
(** ** More on the controller *)

Module FloatMore.
Lemma ltb_asym (x y : Float.t) :
  (x <? y)%float = true -> (y <? x)%float = false.
Proof.
  unfold Float.ltb, SFltb. rewrite (FloatFacts.compare_antisym y x).
  now destruct (SFcompare x y) as [[]|].
Qed.

Lemma leb_not_gtb (x y : Float.t) :
  (x <=? y)%float = true -> (x >? y)%float = false.
Proof.
  unfold Float.leb, Float.gtb, SFleb, SFltb.
  rewrite (FloatFacts.compare_antisym y x).
  now destruct (SFcompare x y) as [[]|].
Qed.

Lemma ltb_zero_neq (x : Float.t) :
  (Float.zero <? x)%float = true -> (x =? Float.zero)%float = false.
Proof.
  unfold Float.ltb, Float.eqb, SFltb, SFeqb, Float.zero.
  destruct x as [s|s| |s m e]; simpl; try easy; now destruct s.
Qed.

(** [_clamp] leaves alone what lies within the bounds. *)
Lemma clamp_inside (x : Float.t) :
  (Float.zero <=? x)%float = true -> (x <=? Float.one)%float = true ->
  _clamp x Float.zero Float.one = x.
Proof.
  intros Hlo Hhi. unfold _clamp.
  rewrite (leb_not_gtb _ _ Hhi).
  change (x <? Float.zero)%float with (Float.zero >? x)%float.
  now rewrite (leb_not_gtb _ _ Hlo).
Qed.
End FloatMore.

Module ControllerMore.
Import LedController.

Lemma run_on_mock (o : LedOps.op) (c : t) :
  mock_mirrors c ->
  exists c' st, LedOps.run o c = Returned c' st /\ mock_mirrors c'.
Proof.
  intros (L & m & B & Lm & S & D).
  destruct c as [[i log] l on b]; simpl in *. subst i l.
  destruct o as [[|]|x|]; simpl.
  - rewrite LedFacts.set_power_on_eq by reflexivity. simpl.
    rewrite (BackendFacts.send_mock _ m log Lm).
    eexists _, _. split; [reflexivity|].
    split; [reflexivity|]. eexists. simpl. repeat split.
  - rewrite LedFacts.set_power_off_eq by reflexivity. simpl.
    rewrite (BackendFacts.send_mock _ m log Lm).
    eexists _, _. split; [reflexivity|].
    split; [reflexivity|]. eexists. simpl. repeat split.
  - rewrite LedFacts.set_brightness_eq by reflexivity. simpl.
    destruct (_clamp x Float.zero Float.one =? Float.zero)%float;
      rewrite (BackendFacts.send_mock _ m log Lm);
      eexists _, _; (split; [reflexivity|]);
      (split; [reflexivity|]); eexists; simpl; repeat split.
  - rewrite LedFacts.state_eq by reflexivity.
    eexists _, _. split; [reflexivity|].
    split; [reflexivity|]. exists m. simpl. repeat split; assumption.
Qed.

(** X6: on the mock backend no operation fails or blocks, and the mock
    mirrors the controller.  From a new controller on a new mock, every
    sequence of [set_power], [set_brightness] (with any float, a NaN as
    well) and [state] returns one state for each operation, and at the
    end the mock is started exactly when the light is on, with a duty
    cycle of the brightness times 100 when on and of [0.0] when off. *)
Theorem mock_mirrors_controller (frequency_hz : Z) (ops : list LedOps.op) :
  exists (c : t) (sts : list LedState),
    LedOps.run_all ops
      (LedController.new (PwmOutput.of_mock (MockPwmOutput.new frequency_hz)))
    = Returned c sts
    /\ List.length sts = List.length ops
    /\ mock_mirrors c.
Proof.
  assert (I : mock_mirrors
                (LedController.new
                   (PwmOutput.of_mock (MockPwmOutput.new frequency_hz)))).
  { split; [reflexivity|]. eexists. repeat split. }
  revert I. generalize (LedController.new
                          (PwmOutput.of_mock (MockPwmOutput.new frequency_hz))).
  induction ops as [|o ops IH]; intros c I; simpl.
  - exists c, []. split; [reflexivity|]. split; [reflexivity | exact I].
  - destruct (run_on_mock o I) as (c1 & st & E1 & I1).
    destruct (IH c1 I1) as (c2 & sts & E2 & Len & I2).
    exists c2, (st :: sts). unfold bind. rewrite E1, E2.
    split; [reflexivity|]. split; [simpl; now rewrite Len | exact I2].
Qed.

(** X7: what power-on remembers.  On an idle controller on an idle
    mock, after [set_brightness(b)] with [0 < b <= 1] a
    [set_power(True)] keeps the brightness [b]; after a
    [set_power(False)] the brightness is forgotten and the next
    [set_power(True)] turns the light on at exactly [1.0]. *)
Theorem power_on_keeps_then_forgets (c : t) (b : Float.t) :
  idle_on_mock c ->
  (Float.zero <? b)%float = true ->
  (b <=? Float.one)%float = true ->
  exists c',
    LedOps.run_all
      [LedOps.SetBrightness b; LedOps.SetPower true;
       LedOps.SetPower false; LedOps.SetPower true] c
    = Returned c'
        [mkLedState true b; mkLedState true b; OFF; mkLedState true Float.one]
    /\ observable c' = mkLedState true Float.one.
Proof.
  intros (L & m & B & Lm) Hpos Hle.
  destruct c as [[i log] l on x]; simpl in *. subst i l.
  assert (Hc : _clamp b Float.zero Float.one = b).
  { apply FloatMore.clamp_inside; [|exact Hle].
    unfold Float.leb, Float.ltb, SFleb, SFltb in *.
    now destruct (SFcompare Float.zero b) as [[]|]. }
  unfold LedOps.run_all, LedOps.run, bind.
  rewrite LedFacts.set_brightness_eq by reflexivity. simpl.
  rewrite Hc, (FloatMore.ltb_zero_neq _ Hpos).
  rewrite (BackendFacts.send_mock _ m log Lm).
  rewrite LedFacts.set_power_on_eq by reflexivity. simpl.
  unfold power_on_brightness. rewrite (FloatFacts.ltb_zero_not_leb _ Hpos).
  eexists. split; reflexivity.
Qed.

Lemma power_on_keeps_then_forgets_witness :
  idle_on_mock Sample.controller
  /\ (Float.zero <? Sample.half)%float = true
  /\ (Sample.half <=? Float.one)%float = true
  /\ exists c',
       LedOps.run_all
         [LedOps.SetBrightness Sample.half; LedOps.SetPower true;
          LedOps.SetPower false; LedOps.SetPower true] Sample.controller
       = Returned c'
           [mkLedState true Sample.half; mkLedState true Sample.half; OFF;
            mkLedState true Float.one]
       /\ observable c' = mkLedState true Float.one.
Proof.
  assert (I : idle_on_mock Sample.controller).
  { split; [reflexivity|]. eexists. split; reflexivity. }
  split; [exact I|]. split; [reflexivity|]. split; [reflexivity|].
  exact (@power_on_keeps_then_forgets Sample.controller Sample.half I
           eq_refl eq_refl).
Defined.

(** X8: [close] stops the backend and leaves the state of the
    controller alone.  On an idle controller on an idle mock it returns,
    the mock is stopped with a duty cycle of [0.0], and [state()] still
    shows what it showed before: a light that was on is still reported
    on. *)
Theorem close_keeps_reported_state (c : t) :
  idle_on_mock c ->
  exists (c' : t) (m' : MockPwmOutput.t),
    close c = Returned c' tt
    /\ PwmOutput.backend (pwm c') = PwmOutput.Mock m'
    /\ MockPwmOutput.started m' = false
    /\ MockPwmOutput.duty_cycle_percent m' = Float.zero
    /\ state c' = Returned c' (observable c).
Proof.
  intros (L & m & B & Lm).
  destruct c as [[i log] l on x]; simpl in *. subst i l.
  rewrite LedFacts.close_eq by reflexivity. simpl.
  rewrite (BackendFacts.send_mock _ m log Lm).
  rewrite BackendFacts.send_mock by reflexivity.
  eexists _, _. split; [reflexivity|]. simpl.
  split; [reflexivity|]. repeat split.
Qed.

Lemma close_keeps_reported_state_witness :
  idle_on_mock Sample2.lit
  /\ exists (c' : t),
       close Sample2.lit = Returned c' tt
       /\ state c' = Returned c' (mkLedState true Sample.half).
Proof.
  assert (I : idle_on_mock Sample2.lit).
  { split; [reflexivity|]. eexists. split; reflexivity. }
  split; [exact I|].
  destruct (close_keeps_reported_state I) as (c' & m' & E & _ & _ & _ & S).
  exists c'. split; assumption.
Defined.
End ControllerMore.


(* ================================================================== *)
(** ** Authentication, settings and the bot *)

Module AuthMore.
Import Auth.

(** X9: who gets in, and what everybody else gets.  [require_auth]
    returns a context exactly when credentials are present, their scheme
    is "bearer" up to case, and their token is the configured one, read
    as ASCII; it never returns for another token.  It raises the
    TypeError of [compare_digest] exactly when the scheme is "bearer" up
    to case and the token or the configured token holds a code point
    outside ASCII, equal or not.  It raises the 401 exactly in the
    remaining cases: no credentials, another scheme, or two ASCII tokens
    that differ.  It raises nothing else. *)
Theorem require_auth_accepts_exactly
  (settings : Settings.t) (creds : option HTTPAuthorizationCredentials) :
  (forall ctx,
      require_auth settings creds = inl ctx <->
      ctx = mkAuthContext "api_token"
      /\ exists c,
           creds = Some c
           /\ lower (scheme c) = "bearer"%string
           /\ credentials c = Settings.api_token settings
           /\ is_ascii (Settings.api_token settings) = true)
  /\ (require_auth settings creds = inr TypeError <->
      exists c,
        creds = Some c
        /\ lower (scheme c) = "bearer"%string
        /\ is_ascii (credentials c)
           && is_ascii (Settings.api_token settings) = false)
  /\ (require_auth settings creds
      = inr (HTTPException HTTP_401_UNAUTHORIZED "Unauthorized") <->
      creds = None
      \/ exists c,
           creds = Some c
           /\ (lower (scheme c) <> "bearer"%string
               \/ (is_ascii (credentials c)
                   && is_ascii (Settings.api_token settings) = true
                   /\ credentials c <> Settings.api_token settings)))
  /\ (forall e,
        require_auth settings creds = inr e ->
        e = TypeError
        \/ e = HTTPException HTTP_401_UNAUTHORIZED "Unauthorized").
Proof.
  unfold require_auth, compare_digest.
  destruct creds as [c|].
  2:{ split; [|split; [|split]].
      - intros ctx. split; [discriminate|].
        intros (_ & c & E & _). discriminate E.
      - split; [discriminate|]. intros (c & E & _). discriminate E.
      - split; [now left | reflexivity].
      - intros e [= <-]. now right. }
  destruct (String.eqb (lower (scheme c)) "bearer") eqn:S; simpl.
  2:{ apply String.eqb_neq in S. split; [|split; [|split]].
      - intros ctx. split; [discriminate|].
        intros (_ & c' & [= <-] & S' & _). contradiction.
      - split; [discriminate|]. intros (c' & [= <-] & S' & _). contradiction.
      - split; [|reflexivity]. intros _. right. exists c.
        split; [reflexivity|]. now left.
      - intros e [= <-]. now right. }
  apply String.eqb_eq in S.
  destruct (is_ascii (credentials c) && is_ascii (Settings.api_token settings))
    eqn:A.
  2:{ split; [|split; [|split]].
      - intros ctx. split; [discriminate|].
        intros (_ & c' & [= <-] & _ & T & A').
        rewrite T, A' in A. discriminate A.
      - split; [|reflexivity]. intros _. exists c. now repeat split.
      - split; [discriminate|].
        intros [E|(c' & [= <-] & [N|[A' _]])];
          [discriminate E | contradiction | congruence].
      - intros e [= <-]. now left. }
  destruct (String.eqb (credentials c) (Settings.api_token settings)) eqn:T;
    simpl.
  - apply String.eqb_eq in T.
    split; [|split; [|split]].
    + intros ctx. split.
      * intros [= <-]. split; [reflexivity|]. exists c.
        apply andb_prop in A as [_ A]. now repeat split.
      * now intros [-> _].
    + split; [discriminate|].
      intros (c' & [= <-] & _ & A'). congruence.
    + split; [discriminate|].
      intros [E|(c' & [= <-] & [N|[_ N]])];
        [discriminate E | contradiction | contradiction].
    + discriminate.
  - apply String.eqb_neq in T. split; [|split; [|split]].
    + intros ctx. split; [discriminate|].
      intros (_ & c' & [= <-] & _ & T' & _). contradiction.
    + split; [discriminate|].
      intros (c' & [= <-] & _ & A'). congruence.
    + split; [|reflexivity]. intros _. right. exists c.
      split; [reflexivity|]. right. now split.
    + intros e [= <-]. now right.
Qed.

(** Three requests: the configured token under the scheme "BeArEr" gets
    in; the configured token itself is refused with a TypeError when it
    is not ASCII; an ASCII token that differs in one letter gets the
    401. *)
Lemma require_auth_accepts_exactly_witness :
  require_auth Sample2.settings
    (Some (mkCredentials "BeArEr" "0123456789abcdef"))
  = inl (mkAuthContext "api_token")
  /\ require_auth Sample2.accented_settings
       (Some (mkCredentials "Bearer" Sample2.accented))
     = inr TypeError
  /\ require_auth Sample2.settings
       (Some (mkCredentials "Bearer" "0123456789abcdeF"))
     = inr (HTTPException 401 "Unauthorized").
Proof.
  split; [|split].
  - apply (proj1 (require_auth_accepts_exactly Sample2.settings
                    (Some (mkCredentials "BeArEr" "0123456789abcdef")))).
    split; [reflexivity|]. eexists. repeat split; reflexivity.
  - apply (proj1 (proj2 (require_auth_accepts_exactly Sample2.accented_settings
                           (Some (mkCredentials "Bearer" Sample2.accented))))).
    eexists. repeat split; reflexivity.
  - apply (proj1 (proj2 (proj2
             (require_auth_accepts_exactly Sample2.settings
                (Some (mkCredentials "Bearer" "0123456789abcdeF")))))).
    right. eexists. split; [reflexivity|]. right.
    split; [reflexivity | discriminate].
Defined.
End AuthMore.

Module SettingsFacts.
Lemma set_add_in (n m : Z) (s : int_set) :
  In n (set_add m s) <-> n = m \/ In n s.
Proof.
  induction s as [|k s IH]; simpl.
  - intuition.
  - destruct (Z.eqb_spec k m); simpl.
    + subst. intuition.
    + rewrite IH. intuition.
Qed.

Lemma set_add_nodup (m : Z) (s : int_set) : NoDup s -> NoDup (set_add m s).
Proof.
  induction s as [|k s IH]; simpl; intros ND.
  - constructor; [intros [] | constructor].
  - destruct (Z.eqb_spec k m); [exact ND|].
    inversion ND as [|? ? Hnot ND']; subst.
    constructor; [|now apply IH].
    rewrite set_add_in. intros [->|Hin]; [now apply n | contradiction].
Qed.

Lemma set_contains_in (n : Z) (s : int_set) :
  set_contains n s = true <-> In n s.
Proof.
  unfold set_contains. rewrite existsb_exists. split.
  - intros (x & Hin & E). apply Z.eqb_eq in E. now subst.
  - intros Hin. exists n. split; [exact Hin | apply Z.eqb_refl].
Qed.

Section WithInt.
Context `{IntBuiltin}.

Lemma add_parts_ok (parts : list string) :
  forall (acc ids : int_set),
    Settings.add_parts parts acc = inl ids ->
    NoDup acc ->
    NoDup ids
    /\ (forall n, In n ids <->
                  In n acc \/ exists part, In part parts /\ names part n)
    /\ (forall part, In part parts -> strip part <> ""%string ->
                     exists n, int_of_str (strip part) = Some n).
Proof.
  induction parts as [|p parts IH]; intros acc ids; simpl.
  - intros [= <-] ND. split; [exact ND|]. split.
    + intros n. split; [now left | intros [Hn|(part & [] & _)]; exact Hn].
    + intros part [].
  - destruct (String.eqb (strip p) "") eqn:E.
    + apply String.eqb_eq in E. intros A ND.
      destruct (IH acc ids A ND) as (ND' & M & P). split; [exact ND'|]. split.
      * intros n. rewrite M. split.
        -- intros [Hn|(part & Hin & Hnm)]; [now left|].
           right. exists part. split; [now right | exact Hnm].
        -- intros [Hn|(part & [<-|Hin] & Hnm)]; [now left| |].
           ++ destruct Hnm as [Hne _]. contradiction.
           ++ right. exists part. split; assumption.
      * intros part [<-|Hin] Hne; [contradiction | now apply P].
    + apply String.eqb_neq in E.
      destruct (int_of_str (strip p)) as [k|] eqn:I; [|discriminate].
      intros A ND.
      destruct (IH (set_add k acc) ids A (set_add_nodup k ND)) as (ND' & M & P).
      split; [exact ND'|]. split.
      * intros n. rewrite M, set_add_in. split.
        -- intros [[->|Hn]|(part & Hin & Hnm)].
           ++ right. exists p. split; [now left | now split].
           ++ now left.
           ++ right. exists part. split; [now right | exact Hnm].
        -- intros [Hn|(part & [<-|Hin] & Hnm)].
           ++ left. now right.
           ++ destruct Hnm as [_ Hk]. rewrite I in Hk. injection Hk as ->.
              left. now left.
           ++ right. exists part. split; assumption.
      * intros part [<-|Hin] Hne; [now exists k | now apply P].
Qed.

Lemma add_parts_error (parts : list string) :
  forall (acc : int_set) (e : exn),
    Settings.add_parts parts acc = inr e ->
    e = ValueError
    /\ exists part,
         In part parts /\ strip part <> ""%string
         /\ int_of_str (strip part) = None.
Proof.
  induction parts as [|p parts IH]; intros acc e; simpl; [discriminate|].
  destruct (String.eqb (strip p) "") eqn:E.
  - intros A. destruct (IH acc e A) as (-> & part & Hin & Hne & Hi).
    split; [reflexivity|]. exists part. repeat split; auto.
  - apply String.eqb_neq in E.
    destruct (int_of_str (strip p)) as [k|] eqn:I.
    + intros A. destruct (IH _ e A) as (-> & part & Hin & Hne & Hi).
      split; [reflexivity|]. exists part. repeat split; auto.
    + intros [= <-]. split; [reflexivity|]. exists p. repeat split; auto.
Qed.
End WithInt.
End SettingsFacts.


Module BotFacts.
Lemma all_percents_ok :
  forallb percent_ok (map Z.of_nat (seq 0 101)) = true.
Proof. vm_compute. reflexivity. Qed.

Lemma percent_ok_in_range (p : Z) :
  (0 <= p <= 100)%Z -> percent_ok p = true.
Proof.
  intros R. pose proof all_percents_ok as A.
  rewrite forallb_forall in A. apply A.
  apply in_map_iff. exists (Z.to_nat p). split; [lia|].
  apply in_seq. lia.
Qed.
End BotFacts.

Module BotMore.
Section WithInt.
Context `{IntBuiltin}.
Import SettingsFacts.

(** X10: what the allow-list of chats holds.  When
    [allowed_chat_ids] returns, the set has no repetition and holds
    exactly the integers named by the comma-separated parts of the
    trimmed setting that are not blank; blank parts count for nothing.
    When it raises, it raises a ValueError, and some part that is not
    blank is not an integer. *)
Theorem allowed_chat_ids_are_the_named_parts (settings : Settings.t) :
  let parts := split_comma (strip (Settings.telegram_allowed_chat_ids settings)) in
  (forall ids,
      Settings.allowed_chat_ids settings = inl ids ->
      NoDup ids
      /\ forall n, In n ids <-> exists part, In part parts /\ names part n)
  /\ (forall e,
        Settings.allowed_chat_ids settings = inr e ->
        e = ValueError
        /\ exists part,
             In part parts /\ strip part <> ""%string
             /\ int_of_str (strip part) = None).
Proof.
  intros parts. unfold Settings.allowed_chat_ids. fold parts.
  destruct (String.eqb (strip (Settings.telegram_allowed_chat_ids settings)) "")
    eqn:E.
  - apply String.eqb_eq in E. split; [|discriminate].
    intros ids [= <-]. split; [constructor|].
    intros n. split; [intros []|].
    intros (part & Hin & Hne & _). unfold parts in Hin. rewrite E in Hin.
    simpl in Hin. destruct Hin as [<-|[]]. now apply Hne.
  - split.
    + intros ids A.
      destruct (@add_parts_ok _ parts [] ids A (NoDup_nil Z)) as (ND & M & _).
      split; [exact ND|]. intros n. rewrite M. split.
      * intros [[]|Hex]. exact Hex.
      * intros Hex. now right.
    + intros e A. exact (@add_parts_error _ parts [] e A).
Qed.

(** X11: who may talk to the bot.  With the set that
    [allowed_chat_ids] returned, [_is_allowed] admits a chat exactly
    when no part of the setting is anything but blank (an empty
    allow-list lets every chat in) or some part names the identifier of
    the chat; an update without a chat is never admitted. *)
Theorem chat_is_allowed_iff
  (settings : Settings.t) (ids : int_set) (api : Bot.NightlightApiClient)
  (chat : Bot.Chat) :
  Settings.allowed_chat_ids settings = inl ids ->
  let parts := split_comma (strip (Settings.telegram_allowed_chat_ids settings)) in
  (Bot._is_allowed (Bot.mkUpdate (Some chat)) (Bot.mkBotContext api ids) = true
   <-> (forall part, In part parts -> strip part = ""%string)
       \/ exists part, In part parts /\ names part (Bot.id chat))
  /\ Bot._is_allowed (Bot.mkUpdate None) (Bot.mkBotContext api ids) = false.
Proof.
  intros A parts.
  destruct (allowed_chat_ids_are_the_named_parts settings) as [Hok _].
  destruct (Hok ids A) as [_ M]. fold parts in M.
  assert (P : forall part, In part parts -> strip part <> ""%string ->
                           exists n, int_of_str (strip part) = Some n).
  { unfold Settings.allowed_chat_ids in A. fold parts in A.
    destruct (String.eqb (strip (Settings.telegram_allowed_chat_ids settings)) "")
      eqn:E.
    - apply String.eqb_eq in E. intros part Hin Hne.
      unfold parts in Hin. rewrite E in Hin. simpl in Hin.
      destruct Hin as [<-|[]]. now contradiction Hne.
    - exact (proj2 (proj2 (@add_parts_ok _ parts [] _ A (NoDup_nil Z)))). }
  split; [|reflexivity].
  unfold Bot._is_allowed. simpl.
  destruct ids as [|k ids'] eqn:Eids.
  - split; [|reflexivity]. intros _. left. intros part Hin.
    destruct (String.eqb (strip part) "") eqn:E; [now apply String.eqb_eq|].
    apply String.eqb_neq in E. destruct (P part Hin E) as [n Hn].
    exfalso. apply (proj2 (M n)). exists part. now repeat split.
  - rewrite set_contains_in, M. split; [intros Hex; now right|].
    intros [Hblank|Hex]; [|exact Hex].
    exfalso. destruct (proj1 (M k) (or_introl eq_refl)) as (part & Hin & Hne & _).
    apply Hne. now apply Hblank.
Qed.

(** X12: the brightness the bot asks for.  Whenever the trimmed
    argument is an integer [n], [parse_brightness_arg] returns the
    float of [n] clamped to 0..100, divided by [100.0]: a number, within
    [0, 1], that [_clamp] leaves as it is; [0.0] for [n <= 0] and [1.0]
    for [n >= 100].  When it is not an integer the ValueError comes
    out. *)
Theorem parse_brightness_arg_in_range (value : string) :
  (forall n,
      int_of_str (strip value) = Some n ->
      exists x y,
        Bot.parse_brightness_arg value = inl x
        /\ Float.of_int (clamp_percent n) = Some y
        /\ x = float_div y Float.hundred
        /\ Float.is_nan x = false
        /\ (Float.zero <=? x)%float = true
        /\ (x <=? Float.one)%float = true
        /\ _clamp x Float.zero Float.one = x
        /\ ((n <= 0)%Z -> x = Float.zero)
        /\ ((100 <= n)%Z -> x = Float.one))
  /\ (int_of_str (strip value) = None ->
      Bot.parse_brightness_arg value = inr ValueError).
Proof.
  unfold Bot.parse_brightness_arg. split; [|now intros ->].
  intros n ->.
  assert (C : (if ((if (n <? 0)%Z then 0 else n) >? 100)%Z
               then 100%Z else if (n <? 0)%Z then 0%Z else n)
              = clamp_percent n).
  { unfold clamp_percent. destruct (n <? 0)%Z; reflexivity. }
  rewrite C.
  assert (R : (0 <= clamp_percent n <= 100)%Z).
  { unfold clamp_percent.
    destruct (Z.ltb_spec n 0); [lia|].
    destruct (n >? 100)%Z eqn:G; [lia|].
    rewrite Z.gtb_ltb in G. apply Z.ltb_ge in G. lia. }
  pose proof (BotFacts.percent_ok_in_range R) as P.
  unfold percent_ok in P.
  destruct (Float.of_int (clamp_percent n)) as [y|] eqn:Y; [|discriminate].
  simpl in P. apply andb_prop in P as [P Hhi]. apply andb_prop in P as [Hn Hlo].
  apply negb_true_iff in Hn.
  exists (float_div y Float.hundred), y.
  repeat split; try assumption.
  - now apply FloatMore.clamp_inside.
  - intros Hle. assert (E : clamp_percent n = 0%Z).
    { unfold clamp_percent. destruct (Z.ltb_spec n 0); [reflexivity|].
      assert (n = 0%Z) by lia. now subst. }
    rewrite E in Y. injection Y as <-. reflexivity.
  - intros Hge. assert (E : clamp_percent n = 100%Z).
    { unfold clamp_percent. destruct (Z.ltb_spec n 0); [lia|].
      destruct (n >? 100)%Z eqn:G; [reflexivity|].
      rewrite Z.gtb_ltb in G. apply Z.ltb_ge in G. lia. }
    rewrite E in Y. injection Y as <-. reflexivity.
Qed.
End WithInt.

Lemma allowed_chat_ids_are_the_named_parts_witness :
  @Settings.allowed_chat_ids Sample2.int_builtin Sample2.settings
  = inl [42%Z; (-7)%Z]
  /\ NoDup [42%Z; (-7)%Z]
  /\ forall n,
       In n [42%Z; (-7)%Z] <->
       exists part,
         In part (split_comma
                    (strip (Settings.telegram_allowed_chat_ids Sample2.settings)))
         /\ @names Sample2.int_builtin part n.
Proof.
  split; [reflexivity|].
  exact (proj1 (@allowed_chat_ids_are_the_named_parts Sample2.int_builtin
                  Sample2.settings) [42%Z; (-7)%Z] eq_refl).
Defined.

Lemma chat_is_allowed_iff_witness :
  @Settings.allowed_chat_ids Sample2.int_builtin Sample2.settings
  = inl [42%Z; (-7)%Z]
  /\ Bot._is_allowed (Bot.mkUpdate (Some (Bot.mkChat 42)))
       (Bot.mkBotContext (Bot.mkClient "" "" "" true) [42%Z; (-7)%Z]) = true
  /\ Bot._is_allowed (Bot.mkUpdate None)
       (Bot.mkBotContext (Bot.mkClient "" "" "" true) [42%Z; (-7)%Z]) = false.
Proof.
  split; [reflexivity|].
  destruct (@chat_is_allowed_iff Sample2.int_builtin Sample2.settings
              [42%Z; (-7)%Z] (Bot.mkClient "" "" "" true) (Bot.mkChat 42)
              eq_refl) as [_ N].
  split; [reflexivity | exact N].
Defined.

Lemma parse_brightness_arg_in_range_witness :
  @int_of_str Sample2.int_builtin (strip " 40 ") = Some 40%Z
  /\ exists x y,
       @Bot.parse_brightness_arg Sample2.int_builtin " 40 " = inl x
       /\ Float.of_int (clamp_percent 40) = Some y
       /\ x = float_div y Float.hundred
       /\ Float.is_nan x = false
       /\ (Float.zero <=? x)%float = true
       /\ (x <=? Float.one)%float = true
       /\ _clamp x Float.zero Float.one = x
       /\ ((40 <= 0)%Z -> x = Float.zero)
       /\ ((100 <= 40)%Z -> x = Float.one).
Proof.
  split; [reflexivity|].
  exact (proj1 (@parse_brightness_arg_in_range Sample2.int_builtin " 40 ")
           40%Z eq_refl).
Defined.
End BotMore.


(* ================================================================== *)
(** ** The other routes *)

Arguments heap_set : simpl never.

Module LedRoutes.
Import Routes RoutesLed.

(** X13: the device routes answer an unknown device with the 404.
    On an idle registry that holds nothing under the identifier,
    [get_led_state], [set_led_power] and [set_led_brightness] all raise
    "Not found" (the KeyError of the registry does not come out), and no
    controller, device or scenario has changed. *)
Theorem led_routes_answer_not_found
  (app : App) (device_id : string) (p : SetPowerIn) (b : SetBrightnessIn) :
  DeviceRegistry._lock (registry app) = false ->
  dict_get device_id (DeviceRegistry._led_devices (registry app)) = None ->
  exists app',
    get_led_state device_id app
    = Raised app' (HTTPException HTTP_404_NOT_FOUND "Not found")
    /\ set_led_power device_id p app
       = Raised app' (HTTPException HTTP_404_NOT_FOUND "Not found")
    /\ set_led_brightness device_id b app
       = Raised app' (HTTPException HTTP_404_NOT_FOUND "Not found")
    /\ heap app' = heap app
    /\ scenarios app' = scenarios app
    /\ DeviceRegistry._led_devices (registry app')
       = DeviceRegistry._led_devices (registry app).
Proof.
  intros L G.
  unfold get_led_state, set_led_power, set_led_brightness, not_found.
  unfold bind, except_KeyError, on_devices, zoom, raise.
  rewrite (RegistryFacts.get_led_idle _ _ L), G.
  eexists. repeat split.
Qed.

Lemma led_routes_answer_not_found_witness :
  DeviceRegistry._lock (registry Sample.app) = false
  /\ exists app',
       get_led_state "ghost" Sample.app
       = Raised app' (HTTPException 404 "Not found")
       /\ heap app' = heap Sample.app.
Proof.
  split; [reflexivity|].
  destruct (@led_routes_answer_not_found Sample.app "ghost"
              (mkSetPowerIn true) (mkSetBrightnessIn Float.one)
              eq_refl eq_refl) as (app' & E & _ & _ & Hh & _).
  exists app'. split; assumption.
Defined.

(** X14: a brightness written through the route is the brightness
    read back.  For a device registered on an idle registry, with an idle
    controller on an idle mock, [set_led_brightness] returns and
    [get_led_state] then returns the brightness [_clamp(b, 0, 1)], on
    exactly when that value differs from [0]; for a number [b] it lies
    within [0, 1].  The controllers of the other devices are as they
    were. *)
Theorem brightness_written_is_read_back
  (app : App) (device_id : string) (d : LedDevice.t) (b : Float.t) :
  DeviceRegistry._lock (registry app) = false ->
  dict_get device_id (DeviceRegistry._led_devices (registry app)) = Some d ->
  idle_on_mock (heap app (LedDevice.controller d)) ->
  let r := _clamp b Float.zero Float.one in
  exists (app1 app2 : App) (st : LedState),
    set_led_brightness device_id (mkSetBrightnessIn b) app = Returned app1 st
    /\ get_led_state device_id app1
       = Returned app2 (mkLedState (negb (r =? Float.zero)%float) r)
    /\ st = (if (r =? Float.zero)%float then OFF else mkLedState true r)
    /\ (Float.is_nan b = false ->
        (Float.zero <=? r)%float = true /\ (r <=? Float.one)%float = true)
    /\ (forall r0, r0 <> LedDevice.controller d -> heap app2 r0 = heap app r0).
Proof.
  intros L G (Lc & m & B & Lm) r.
  unfold set_led_brightness.
  unfold bind, except_KeyError, on_devices, on_heap, zoom, ret.
  rewrite (RegistryFacts.get_led_idle _ _ L), G. simpl.
  unfold LedDevice.set_brightness, at_ref, zoom.
  rewrite (LedFacts.set_brightness_eq _ b Lc). fold r.
  destruct (heap app (LedDevice.controller d)) as [[i log] l on x] eqn:Hc.
  simpl in *. subst i l.
  destruct (r =? Float.zero)%float eqn:E;
    rewrite (BackendFacts.send_mock _ m log Lm); simpl;
    (eexists _, _, _; split; [reflexivity|]);
    unfold get_led_state;
    unfold bind, except_KeyError, on_devices, on_heap, zoom, ret; simpl;
    rewrite RegistryFacts.get_led_idle by reflexivity; simpl; rewrite G;
    unfold LedDevice.state, at_ref, zoom; cbn [heap];
    rewrite HeapFacts.heap_set_same;
    rewrite LedFacts.state_eq by reflexivity; simpl;
    (split; [reflexivity|]; split; [reflexivity|]; split;
     [ intros Hn; exact (FloatFacts.clamp_range b Hn)
     | intros r0 N; cbn [heap]; rewrite HeapFacts.heap_set_other by exact N;
       now rewrite HeapFacts.heap_set_other by exact N ]).
Qed.

Lemma brightness_written_is_read_back_witness :
  DeviceRegistry._lock (registry Sample.app) = false
  /\ idle_on_mock (heap Sample.app (LedDevice.controller Sample.x))
  /\ exists (app1 app2 : App) (st : LedState),
       set_led_brightness "x" (mkSetBrightnessIn Sample.half) Sample.app
       = Returned app1 st
       /\ get_led_state "x" app1
          = Returned app2 (mkLedState true Sample.half).
Proof.
  assert (I : idle_on_mock (heap Sample.app (LedDevice.controller Sample.x))).
  { split; [reflexivity|]. eexists. split; reflexivity. }
  split; [reflexivity|]. split; [exact I|].
  destruct (@brightness_written_is_read_back Sample.app "x" Sample.x Sample.half
              eq_refl eq_refl I) as (app1 & app2 & st & E1 & E2 & _).
  exists app1, app2, st. split; [exact E1 | exact E2].
Defined.
End LedRoutes.

Module ScenarioStore.
Import ScenarioRegistry.

Lemma upsert_eq (sc : Scenario.t) (reg : t) :
  _lock reg = false ->
  upsert sc reg
  = Returned (mk false (dict_set (Scenario.scenario_id sc) sc (_scenarios reg))) tt.
Proof.
  destruct reg as [l scs]; simpl; intros ->.
  unfold upsert. unfold_py; cbn. reflexivity.
Qed.

(** X15: an upsert replaces the scenario as a whole.  On an idle
    registry, storing [a] and then [b] under the same identifier leaves
    the registry as storing [b] alone would: [get] returns [b], nothing
    of [a] is left, and the other identifiers find what they found
    before. *)
Theorem upsert_replaces_the_scenario (reg : t) (a b : Scenario.t) :
  _lock reg = false ->
  Scenario.scenario_id a = Scenario.scenario_id b ->
  exists (reg1 reg2 : t),
    upsert a reg = Returned reg1 tt
    /\ upsert b reg1 = Returned reg2 tt
    /\ upsert b reg = Returned reg2 tt
    /\ get (Scenario.scenario_id b) reg2 = Returned reg2 b
    /\ (forall id, id <> Scenario.scenario_id b ->
          dict_get id (_scenarios reg2) = dict_get id (_scenarios reg)).
Proof.
  intros L S. eexists _, _. rewrite (upsert_eq a reg L).
  split; [reflexivity|]. rewrite upsert_eq by reflexivity. simpl.
  split; [reflexivity|]. rewrite (upsert_eq b reg L), S.
  rewrite DictFacts.set_set. split; [reflexivity|].
  rewrite EngineFacts.scenario_get_eq by reflexivity. simpl.
  rewrite DictFacts.get_set_same. split; [reflexivity|].
  intros id N. now apply DictFacts.get_set_other.
Qed.

Lemma upsert_replaces_the_scenario_witness :
  _lock Sample.scenarios = false
  /\ exists (reg1 reg2 : t),
       upsert (Scenario.mk "evening" "A" Sample.defaults) Sample.scenarios
       = Returned reg1 tt
       /\ upsert (Scenario.mk "evening" "B" []) reg1 = Returned reg2 tt
       /\ get "evening" reg2 = Returned reg2 (Scenario.mk "evening" "B" []).
Proof.
  split; [reflexivity|].
  destruct (@upsert_replaces_the_scenario Sample.scenarios
              (Scenario.mk "evening" "A" Sample.defaults)
              (Scenario.mk "evening" "B" []) eq_refl eq_refl)
    as (reg1 & reg2 & E1 & E2 & _ & E3 & _).
  exists reg1, reg2. repeat split; assumption.
Defined.
End ScenarioStore.


Module StripFacts.
Lemma lstrip_length (s : string) :
  (String.length (lstrip s) <= String.length s)%nat.
Proof.
  induction s as [|c s IH]; simpl; [lia|].
  destruct (isspace c); simpl; lia.
Qed.

(** A string that [lstrip] leaves alone is empty or starts with
    something else than a space. *)
Lemma lstrip_fixed_head (c : ascii) (s : string) :
  lstrip (String c s) = String c s -> isspace c = false.
Proof.
  simpl. destruct (isspace c); [|reflexivity].
  intros E. pose proof (lstrip_length s) as Hl. rewrite E in Hl.
  simpl in Hl. lia.
Qed.

Lemma lstrip_idem (s : string) : lstrip (lstrip s) = lstrip s.
Proof.
  induction s as [|c s IH]; simpl; [reflexivity|].
  destruct (isspace c) eqn:E; [exact IH|]. simpl. now rewrite E.
Qed.

Lemma rstrip_cons (c : ascii) (s : string) :
  rstrip (String c s)
  = match rstrip s with
    | EmptyString => if isspace c then EmptyString else String c EmptyString
    | r => String c r
    end.
Proof. reflexivity. Qed.

Lemma rstrip_idem (s : string) : rstrip (rstrip s) = rstrip s.
Proof.
  induction s as [|c s IH]; [reflexivity|].
  rewrite rstrip_cons.
  destruct (rstrip s) as [|c1 r1] eqn:R.
  - destruct (isspace c) eqn:E; [reflexivity|].
    rewrite rstrip_cons. simpl. now rewrite E.
  - rewrite rstrip_cons, IH. reflexivity.
Qed.

Lemma lstrip_rstrip (s : string) :
  lstrip s = s -> lstrip (rstrip s) = rstrip s.
Proof.
  destruct s as [|c s]; [reflexivity|]. intros F.
  pose proof (lstrip_fixed_head F) as E. rewrite rstrip_cons.
  destruct (rstrip s); rewrite ?E; simpl; now rewrite E.
Qed.

Lemma strip_idem (s : string) : strip (strip s) = strip s.
Proof.
  unfold strip.
  rewrite (lstrip_rstrip (lstrip_idem s)).
  apply rstrip_idem.
Qed.
End StripFacts.

Module TriggerFacts.
Import Routes.

Lemma get_led_log (reg : DeviceRegistry.t) (id : string) :
  DeviceRegistry.get_led_calls (outcome_state (DeviceRegistry.get_led id reg))
  = DeviceRegistry.get_led_calls reg ++ [id].
Proof.
  destruct reg as [l ds calls].
  unfold DeviceRegistry.get_led, DeviceRegistry.record_get_led.
  unfold_py; cbn. destruct l; cbn; [reflexivity|].
  now destruct (dict_get id ds).
Qed.

(** The lookup of a device and the call of one of its methods: the log
    of lookups grows by the identifier, whatever the outcome. *)
Lemma lookup_then_call_log {A B} (id : string) (app : App)
  (call : LedDevice.t -> M Heap A) (k : A -> B) :
  DeviceRegistry.get_led_calls
    (registry
       (outcome_state
          ((device <- on_devices (DeviceRegistry.get_led id) ;;
            a <- on_heap (call device) ;;
            ret (k a)) app)))
  = DeviceRegistry.get_led_calls (registry app) ++ [id].
Proof.
  pose proof (get_led_log (registry app) id) as G.
  unfold bind, on_devices, on_heap, zoom, ret.
  destruct (DeviceRegistry.get_led id (registry app)) as [reg d|reg e|reg];
    simpl in *; try exact G.
  destruct (call d (heap app)); simpl; exact G.
Qed.
End TriggerFacts.

Module ScenariosMore.
Section WithBuiltins.
Context `{Builtins}.
Import Routes Engine EngineFacts.

Lemma run_action_log (a : dict pyval) (executed : list Executed) (app : App) :
  exists ids,
    DeviceRegistry.get_led_calls
      (registry (outcome_state (run_action a executed app)))
    = DeviceRegistry.get_led_calls (registry app) ++ ids
    /\ Forall trimmed ids.
Proof.
  assert (T : String.eqb (device_id_of a) "" = false -> trimmed (device_id_of a)).
  { intros E. apply String.eqb_neq in E. split; [exact E|].
    unfold device_id_of. apply StripFacts.strip_idem. }
  unfold run_action.
  destruct (String.eqb (device_id_of a) "") eqn:E.
  { exists []. simpl. now rewrite app_nil_r. }
  destruct (String.eqb (action_type_of a) "set_power").
  { exists [device_id_of a]. split; [|constructor; [now apply T | constructor]].
    apply (TriggerFacts.lookup_then_call_log (device_id_of a) app
             (fun device => LedDevice.set_power device _)
             (fun state => executed ++ [mkExecuted _ _ state])). }
  destruct (String.eqb (action_type_of a) "set_brightness").
  - unfold bind at 1.
    destruct (py_float _) as [x|e]; simpl.
    + exists [device_id_of a]. split; [|constructor; [now apply T | constructor]].
      apply (TriggerFacts.lookup_then_call_log (device_id_of a) app
               (fun device => LedDevice.set_brightness device x)
               (fun state => executed ++ [mkExecuted _ _ state])).
    + exists []. simpl. now rewrite app_nil_r.
  - exists []. simpl. now rewrite app_nil_r.
Qed.

Lemma run_actions_log (actions : list (dict pyval)) :
  forall (executed : list Executed) (app : App),
  exists ids,
    DeviceRegistry.get_led_calls
      (registry (outcome_state (run_actions actions executed app)))
    = DeviceRegistry.get_led_calls (registry app) ++ ids
    /\ Forall trimmed ids.
Proof.
  induction actions as [|a rest IH]; intros executed app; simpl.
  - exists []. simpl. now rewrite app_nil_r.
  - destruct (run_action_log a executed app) as (ids1 & E1 & T1).
    unfold bind.
    destruct (run_action a executed app) as [app1 ex1|app1 e|app1];
      simpl in E1; try (exists ids1; now split).
    destruct (IH ex1 app1) as (ids2 & E2 & T2).
    exists (ids1 ++ ids2). split.
    + now rewrite E2, E1, app_assoc.
    + apply Forall_app. now split.
Qed.

(** X16: the identifiers a trigger looks up.  Whatever the scenario
    and whatever the outcome, every lookup [trigger_scenario] makes in
    the device registry is for an identifier that is not empty and has
    no space at either end: a device registered under an empty
    identifier, or under one with a space around it, is out of reach of
    every scenario. *)
Theorem trigger_looks_up_trimmed_ids (scenario_id : string) (app : App) :
  exists ids,
    DeviceRegistry.get_led_calls
      (registry (outcome_state (trigger_scenario scenario_id app)))
    = DeviceRegistry.get_led_calls (registry app) ++ ids
    /\ Forall trimmed ids.
Proof.
  unfold trigger_scenario, on_scenarios.
  unfold bind at 1. unfold except_KeyError, zoom, raise.
  destruct (ScenarioRegistry.get scenario_id (scenarios app))
    as [reg sc|reg e|reg]; simpl.
  - destruct (run_actions_log (Scenario.actions sc) []
                (mkApp reg (registry app) (heap app))) as (ids & E & T).
    exists ids. split; [|exact T]. simpl in E. rewrite <- E.
    unfold bind. now destruct (run_actions _ _ _).
  - exists []. rewrite app_nil_r. now destruct e.
  - exists []. now rewrite app_nil_r.
Qed.

(** X17: a scenario is stored under its trimmed identifier.  On an
    idle scenario registry [upsert_scenario] returns the scenario with
    the identifier trimmed, touching neither devices nor controllers; a
    trigger of the trimmed identifier then finds it and dispatches the
    actions of the payload; a trigger of the identifier as given, when it
    has a space around it and nothing was stored under it, raises the
    404. *)
Theorem upsert_scenario_trims_the_id
  (scenario_id : string) (payload : ScenarioRoutes.ScenarioUpsertIn) (app : App) :
  ScenarioRegistry._lock (scenarios app) = false ->
  exists app1,
    ScenarioRoutes.upsert_scenario scenario_id payload app
    = Returned app1
        (ScenarioRoutes.mkScenarioOut (strip scenario_id)
           (ScenarioRoutes.in_name payload) (ScenarioRoutes.in_actions payload))
    /\ registry app1 = registry app
    /\ heap app1 = heap app
    /\ trigger_scenario (strip scenario_id) app1
       = (records <-
            dispatch_all (filter dispatched (ScenarioRoutes.in_actions payload)) ;;
          ret (mkTriggerResult (strip scenario_id) records)) app1
    /\ (strip scenario_id <> scenario_id ->
        dict_get scenario_id (ScenarioRegistry._scenarios (scenarios app)) = None ->
        trigger_scenario scenario_id app1
        = Raised app1 (HTTPException HTTP_404_NOT_FOUND "Not found")).
Proof.
  intros L.
  set (sc := Scenario.mk (strip scenario_id) (ScenarioRoutes.in_name payload)
               (ScenarioRoutes.in_actions payload)).
  set (reg1 := ScenarioRegistry.mk false
                 (dict_set (strip scenario_id) sc
                    (ScenarioRegistry._scenarios (scenarios app)))).
  exists (mkApp reg1 (registry app) (heap app)).
  assert (G1 : ScenarioRegistry.get (strip scenario_id) reg1 = Returned reg1 sc).
  { rewrite scenario_get_eq by reflexivity. simpl.
    now rewrite DictFacts.get_set_same. }
  split; [|split; [reflexivity|]; split; [reflexivity|]; split].
  - unfold ScenarioRoutes.upsert_scenario, on_scenarios.
    unfold bind, zoom, ret. rewrite (ScenarioStore.upsert_eq _ _ L).
    reflexivity.
  - exact (trigger_eq (strip scenario_id) (mkApp reg1 (registry app) (heap app))
             G1).
  - intros N G. unfold trigger_scenario, on_scenarios.
    unfold bind at 1. unfold except_KeyError, zoom, raise. simpl.
    rewrite scenario_get_eq by reflexivity. simpl.
    rewrite DictFacts.get_set_other by (intros E; now apply N).
    rewrite G. reflexivity.
Qed.
End WithBuiltins.

Lemma upsert_scenario_trims_the_id_witness :
  ScenarioRegistry._lock (Routes.scenarios Sample.app) = false
  /\ exists app1,
       ScenarioRoutes.upsert_scenario " night "
         (ScenarioRoutes.mkScenarioUpsertIn "Night" Sample.defaults) Sample.app
       = Returned app1
           (ScenarioRoutes.mkScenarioOut "night" "Night" Sample.defaults)
       /\ @Routes.trigger_scenario Sample.builtins " night " app1
          = Raised app1 (HTTPException 404 "Not found").
Proof.
  split; [reflexivity|].
  destruct (@upsert_scenario_trims_the_id Sample.builtins " night "
              (ScenarioRoutes.mkScenarioUpsertIn "Night" Sample.defaults)
              Sample.app eq_refl) as (app1 & E & _ & _ & _ & N).
  exists app1. split; [exact E|]. apply N; [discriminate | reflexivity].
Defined.
End ScenariosMore.


(* ================================================================== *)
(** ** The composition root and the status route *)

Module SystemFacts.
Import Routes RoutesSystem.

Lemma dict_set_fresh {V} (k : string) (v : V) (d : dict V) :
  ~ In k (dict_keys d) -> dict_set k v d = d ++ [(k, v)].
Proof.
  induction d as [|[k0 v0] d IH]; simpl; intros N; [reflexivity|].
  destruct (String.eqb k0 k) eqn:E.
  - apply String.eqb_eq in E. exfalso. apply N. now left.
  - rewrite IH; [reflexivity|]. intros Hin. apply N. now right.
Qed.

Lemma state_keeps_heap (h : Heap) (r : ref) :
  LedController._lock (h r) = false ->
  at_ref r LedController.state h
  = Returned (heap_set r (h r) h) (observable (h r)).
Proof.
  intros L. unfold at_ref, zoom. now rewrite (LedFacts.state_eq _ L).
Qed.

Lemma heap_set_self (h : Heap) (r : ref) : same_heap h (heap_set r (h r) h).
Proof.
  intros r0. unfold heap_set. destruct (Nat.eqb_spec r0 r); congruence.
Qed.

Lemma collect_all (ds : list LedDevice.t) :
  forall (acc : dict LedState) (app : App) (h0 : Heap),
    DeviceRegistry._lock (registry app) = false ->
    same_heap h0 (heap app) ->
    NoDup (map LedDevice.device_id ds) ->
    (forall d, In d ds ->
       dict_get (LedDevice.device_id d)
         (DeviceRegistry._led_devices (registry app)) = Some d
       /\ LedController._lock (h0 (LedDevice.controller d)) = false
       /\ ~ In (LedDevice.device_id d) (dict_keys acc)) ->
    exists app',
      collect_led_states (map LedDevice.info ds) acc app
      = Returned app' (acc ++ reported_states h0 ds)
      /\ same_heap h0 (heap app')
      /\ scenarios app' = scenarios app
      /\ DeviceRegistry._led_devices (registry app')
         = DeviceRegistry._led_devices (registry app).
Proof.
  induction ds as [|d ds IH]; intros acc app h0 L SH ND Hd; simpl.
  - exists app. unfold ret. rewrite app_nil_r. repeat split. exact SH.
  - inversion ND as [|? ? Hnot ND']; subst.
    destruct (Hd d (or_introl eq_refl)) as (G & Lc & Fresh).
    unfold bind, on_devices, on_heap, zoom.
    rewrite (RegistryFacts.get_led_idle _ _ L), G. cbn [registry heap scenarios].
    unfold LedDevice.state.
    rewrite state_keeps_heap by (rewrite <- SH; exact Lc).
    cbn [is_on brightness observable].
    rewrite (@dict_set_fresh _ _ _ _ Fresh).
    set (app1 := mkApp _ _ _).
    destruct (IH (acc ++ [(LedDevice.device_id d,
                           mkLedState
                             (LedController._is_on (heap app (LedDevice.controller d)))
                             (LedController._brightness
                                (heap app (LedDevice.controller d))))])
                app1 h0) as (app' & E & SH' & S' & D').
    + reflexivity.
    + intros r0. unfold app1. cbn [heap]. rewrite <- heap_set_self. apply SH.
    + exact ND'.
    + intros d' Hin. destruct (Hd d' (or_intror Hin)) as (G' & Lc' & Fresh').
      split; [exact G'|]. split; [exact Lc'|].
      unfold dict_keys. rewrite map_app. intros Hk.
      apply in_app_or in Hk as [Hk|[Hk|[]]]; [now apply Fresh'|].
      simpl in Hk. apply Hnot. rewrite Hk. now apply in_map.
    + exists app'. split; [|repeat split; assumption].
      rewrite E. f_equal. rewrite <- app_assoc. simpl.
      unfold reported_states. simpl. unfold observable at 1. now rewrite <- SH.
Qed.
End SystemFacts.

Module System.
Import Routes RoutesSystem.

(** X18: [/status] on a registry kept by [register_led].  When the
    registry is idle, every entry sits under the identifier of its
    device, no identifier occurs twice and the controllers are idle, the
    handler returns: it lists every device with the type "led", and
    reports for each, under its identifier and in the same order, the
    state its controller holds; no lookup fails, and no controller,
    device or scenario is changed.  The uptime is [now] minus the start
    time, and [now - now] when no start time was recorded. *)
Theorem status_reports_every_device
  (now : Float.t) (started_at : option Float.t) (settings : Settings.t)
  (app : App) :
  DeviceRegistry._lock (registry app) = false ->
  keyed_by_id (DeviceRegistry._led_devices (registry app)) ->
  (forall d, In d (dict_values (DeviceRegistry._led_devices (registry app))) ->
     LedController._lock (heap app (LedDevice.controller d)) = false) ->
  exists (app' : App) (out : StatusOut),
    status_endpoint now started_at settings app = Returned app' out
    /\ service out = "nightlight"%string
    /\ uptime_s out
       = float_sub now (match started_at with Some t => t | None => now end)
    /\ gpio_backend out = Settings.gpio_backend settings
    /\ devices out
       = map LedDevice.info
           (dict_values (DeviceRegistry._led_devices (registry app)))
    /\ led_states out
       = reported_states (heap app)
           (dict_values (DeviceRegistry._led_devices (registry app)))
    /\ same_heap (heap app) (heap app')
    /\ scenarios app' = scenarios app
    /\ DeviceRegistry._led_devices (registry app')
       = DeviceRegistry._led_devices (registry app).
Proof.
  intros L [ND F] Lc.
  unfold status_endpoint. unfold bind at 1. unfold on_devices, zoom.
  rewrite (RegistryFacts.list_devices_eq _ L).
  set (ds := dict_values (DeviceRegistry._led_devices (registry app))).
  assert (Hids : map LedDevice.device_id ds
                 = dict_keys (DeviceRegistry._led_devices (registry app))).
  { unfold ds, dict_values, dict_keys. rewrite map_map. apply map_ext_in.
    intros kv Hin. rewrite Forall_forall in F. symmetry. now apply F. }
  destruct (@SystemFacts.collect_all ds []
              (mkApp (scenarios app) (registry app) (heap app)) (heap app))
    as (app' & E & SH & S & D).
  - exact L.
  - intros r0. reflexivity.
  - now rewrite Hids.
  - intros d Hin. split; [|split; [now apply Lc | intros []]].
    unfold ds, dict_values in Hin. apply in_map_iff in Hin as ([k d'] & Hs & Hin).
    simpl in Hs. subst d'. rewrite Forall_forall in F.
    pose proof (F _ Hin) as Hk. simpl in Hk. subst k.
    now apply DictFacts.in_get_some.
  - unfold bind. rewrite E. simpl in *.
    eexists _, _. split; [reflexivity|]. simpl.
    repeat split; try assumption.
    unfold ds. rewrite map_map. apply map_ext. intros d. reflexivity.
Qed.

Lemma status_reports_every_device_witness :
  DeviceRegistry._lock (registry Sample.app) = false
  /\ exists (app' : App) (out : StatusOut),
       status_endpoint Float.hundred (Some Float.one) Sample2.settings Sample.app
       = Returned app' out
       /\ led_states out = [("x"%string, OFF); ("y"%string, OFF)].
Proof.
  split; [reflexivity|].
  assert (K : keyed_by_id (DeviceRegistry._led_devices (registry Sample.app))).
  { split.
    - simpl. repeat constructor; simpl; intuition discriminate.
    - repeat constructor. }
  destruct (@status_reports_every_device Float.hundred (Some Float.one)
              Sample2.settings Sample.app eq_refl K (fun d _ => eq_refl))
    as (app' & out & E & _ & _ & _ & _ & S & _).
  exists app', out. split; [exact E|]. rewrite S. reflexivity.
Defined.

(** X19: the composition root.  With a backend name that reads
    "mock" once trimmed and put in lower case, [build_registry] needs no
    driver and no valid pin: it returns a registry that lists the one
    device of the settings, with the type "led", found by [get_led]
    under its identifier, whose new controller is idle, off, on a mock
    that mirrors it; every other object of the heap is as it was.  With
    a name that reads neither "mock" nor "rpi" it raises a ValueError,
    and with "rpi" where the driver cannot be imported the import error:
    no registry is built. *)
Theorem build_registry_outcomes
  (settings : Settings.t) (rpi_gpio : option RpiPwmOutput.Gpio)
  (fresh : ref) (h : Heap) :
  let name := lower (strip (Settings.gpio_backend settings)) in
  (name = "mock"%string ->
   exists (reg reg' : DeviceRegistry.t) (h' : Heap),
     AppFactory.build_registry settings rpi_gpio fresh h = inl (reg, h')
     /\ DeviceRegistry.list_devices reg
        = Returned reg [DeviceInfo.mk (Settings.device_id settings) "led"]
     /\ DeviceRegistry.get_led (Settings.device_id settings) reg
        = Returned reg' (LedDevice.mk (Settings.device_id settings) fresh)
     /\ LedController.state (h' fresh) = Returned (h' fresh) OFF
     /\ mock_mirrors (h' fresh)
     /\ (forall r, r <> fresh -> h' r = h r))
  /\ (name <> "mock"%string -> name <> "rpi"%string ->
      AppFactory.build_registry settings rpi_gpio fresh h = inr ValueError)
  /\ (name = "rpi"%string -> rpi_gpio = None ->
      AppFactory.build_registry settings rpi_gpio fresh h
      = inr RpiGpioImportError).
Proof.
  intros name.
  unfold AppFactory.build_registry, GpioFactory.create_pwm_output. fold name.
  split; [|split].
  - intros ->. simpl.
    eexists _, _, _. split; [reflexivity|].
    split; [reflexivity|].
    rewrite RegistryFacts.get_led_idle by reflexivity. simpl.
    rewrite String.eqb_refl. rewrite HeapFacts.heap_set_same.
    split; [reflexivity|]. split; [reflexivity|].
    split.
    + split; [reflexivity|]. eexists. repeat split.
    + intros r N. now apply HeapFacts.heap_set_other.
  - intros N1 N2. apply String.eqb_neq in N1, N2. now rewrite N1, N2.
  - intros -> ->. reflexivity.
Qed.

Lemma build_registry_outcomes_witness :
  lower (strip (Settings.gpio_backend Sample2.settings)) = "mock"%string
  /\ exists (reg : DeviceRegistry.t) (h' : Heap),
       AppFactory.build_registry Sample2.settings None 5 Sample.heap
       = inl (reg, h')
       /\ DeviceRegistry.list_devices reg
          = Returned reg [DeviceInfo.mk "nightlight" "led"]
       /\ LedController.state (h' 5) = Returned (h' 5) OFF.
Proof.
  split; [reflexivity|].
  destruct (proj1 (@build_registry_outcomes Sample2.settings None 5 Sample.heap)
              eq_refl) as (reg & reg' & h' & E & Ls & _ & St & _).
  exists reg, h'. repeat split; assumption.
Defined.
End System.
